(** * Publishing utilities: image scripts and frontmatter extraction

  A shallow embedding of [optimize_images.py] and [resize_gif.py] over a
  small model of the Python runtime (exceptions, a file system, standard
  output) and of the Pillow calls the two scripts make, together with a
  model of the frontmatter extractor of the markdown pipeline. *)

From Stdlib Require Import ZArith Ascii String.
From stdpp Require Import base option list gmap strings.

Local Open Scope Z_scope.

(** ** Text helpers *)

Module Text.

(** The one-character string holding a line feed. *)
Definition nl : string := String (ascii_of_nat 10) EmptyString.

(** [str.endswith]. *)
Definition endswith (s suffix : string) : bool :=
  let n := String.length s in
  let m := String.length suffix in
  if (m <=? n)%nat then String.eqb (String.substring (n - m) m s) suffix
  else false.

(** [str.startswith]. *)
Definition startswith (s pre : string) : bool := String.prefix pre s.

(** [needle in haystack]. *)
Fixpoint contains (needle haystack : string) : bool :=
  String.prefix needle haystack ||
  match haystack with
  | EmptyString => false
  | String _ rest => contains needle rest
  end.

End Text.

(** ** The Python runtime: exceptions, state, processes *)

Module Py.

Inductive exn :=
| FileNotFoundError (path : string)
| IsADirectoryError (path : string)
| UnidentifiedImageError (path : string)
| ValueError (msg : string)
| IndexError (msg : string)
| EOFError (msg : string)
| ModuleNotFoundError (name : string)
| SystemExit (code : Z).

(** [str(e)], the text the interpreter prints under the traceback. *)
Definition message (e : exn) : string :=
  match e with
  | FileNotFoundError p => "[Errno 2] No such file or directory: '" +:+ p +:+ "'"
  | IsADirectoryError p => "[Errno 21] Is a directory: '" +:+ p +:+ "'"
  | UnidentifiedImageError p => "cannot identify image file '" +:+ p +:+ "'"
  | ValueError m => m
  | IndexError m => m
  | EOFError m => m
  | ModuleNotFoundError n => "No module named '" +:+ n +:+ "'"
  | SystemExit _ => ""
  end.

(** How a computation ends: a value, a raised exception, or a loop that
    was cut off by the step budget of the model. *)
Inductive result (A : Type) :=
| Ok (a : A)
| Raise (e : exn)
| OutOfFuel.
Arguments Ok {A} a.
Arguments Raise {A} e.
Arguments OutOfFuel {A}.

(** Computations over a state [S] that may raise. The state reached when
    an exception is raised is kept: that is what an [except] clause sees. *)
Definition py (S A : Type) : Type := S → result A * S.

Definition ret {S A} (a : A) : py S A := λ s, (Ok a, s).

Definition bind {S A B} (m : py S A) (k : A → py S B) : py S B :=
  λ s, match m s with
       | (Ok a, s') => k a s'
       | (Raise e, s') => (Raise e, s')
       | (OutOfFuel, s') => (OutOfFuel, s')
       end.

Definition raise {S A} (e : exn) : py S A := λ s, (Raise e, s).

Definition get {S} : py S S := λ s, (Ok s, s).
Definition modify {S} (f : S → S) : py S unit := λ s, (Ok tt, f s).

(** [try: body except EOFError: pass] *)
Definition try_except_EOFError {S} (body : py S unit) : py S unit :=
  λ s, match body s with
       | (Raise (EOFError _), s') => (Ok tt, s')
       | r => r
       end.

(** [for x in l: body x] *)
Fixpoint for_each {S A} (l : list A) (body : A → py S unit) : py S unit :=
  match l with
  | [] => ret tt
  | x :: l' => bind (body x) (λ _, for_each l' body)
  end.

(** [while cond: body], cut off after [fuel] iterations. *)
Fixpoint while {S} (fuel : nat) (cond : S → bool) (body : py S unit) : py S unit :=
  λ s, if cond s then
         match fuel with
         | O => (OutOfFuel, s)
         | Datatypes.S fuel' => bind body (λ _, while fuel' cond body) s
         end
       else (Ok tt, s).

(** [l[i]] *)
Definition index {S A} (l : list A) (i : nat) : py S A :=
  match l !! i with
  | Some x => ret x
  | None => raise (IndexError "list index out of range")
  end.

(** The two ways the body of [try ... except EOFError] can end for the
    handler to let the program go on. *)
Definition ended (r : result unit) : Prop :=
  r = Ok tt ∨ ∃ msg, r = Raise (EOFError msg).

(** Exit status of the interpreter: 0 after a normal end, the code of an
    uncaught [SystemExit], 1 after any other uncaught exception. *)
Definition exit_status {A} (r : result A) : option Z :=
  match r with
  | Ok _ => Some 0
  | Raise (SystemExit code) => Some code
  | Raise _ => Some 1
  | OutOfFuel => None
  end.

(** What the interpreter writes to standard error when it dies. *)
Definition stderr {A} (r : result A) : option string :=
  match r with
  | Raise (SystemExit _) => None
  | Raise e => Some (message e)
  | _ => None
  end.

End Py.

Declare Scope py_scope.
Delimit Scope py_scope with py.
Notation "x <- m ;; k" := (Py.bind m (λ x, k))
  (at level 100, m at next level, right associativity) : py_scope.
Notation "m ;; k" := (Py.bind m (λ _, k))
  (at level 100, right associativity) : py_scope.
Open Scope py_scope.


(** ** The operating system: files and standard output *)

Module OS.

(** An image as Pillow holds it in memory. The samples of a decoded file
    are a raster; what a library call computes from them is recorded as
    the call itself, so that two images are equal when they were computed
    the same way from the same data. *)
Inductive pixels :=
| Raster (samples : list Z)
| Solid (color : Z * Z * Z)
| Resampled (filter : string) (from to : Z * Z) (src : pixels)
| Band (i : nat) (src : pixels)
| Pasted (background foreground mask : pixels)
| Converted (from to : string) (src : pixels).

Record image := Image {
  mode : string;
  size : Z * Z;
  duration : option Z;   (* [info.get('duration')] *)
  data : pixels
}.

(** The contents of a file: arbitrary bytes, or the file an encoder wrote
    for the given format, keyword arguments and frames. *)
Inductive content :=
| Blob (bytes : list Z)
| Encoded (format : string) (kwargs : list (string * Z)) (frames : list image).

Inductive entry :=
| File (c : content)
| Dir (st_size : Z).

(** One printed line; an f-string is the list of its pieces. [KB b] is the
    field [{b / 1024:.1f}] for a byte count [b]. *)
Inductive piece :=
| Lit (s : string)
| Num (n : Z)
| Pair (p : Z * Z)
| KB (bytes : Z).

Definition line := list piece.

Record world := World {
  files : gmap string entry;
  stdout : list line
}.

Definition print (l : line) : Py.py world unit :=
  Py.modify (λ w, World (files w) (stdout w ++ [l])).

(** [os.path.exists] *)
Definition path_exists (path : string) : Py.py world bool :=
  w <- Py.get;; Py.ret (bool_decide (is_Some (files w !! path))).

Section Codec.

(** The number of bytes an encoder produces. *)
Variable encoded_size : string → list (string * Z) → list image → Z.

Definition content_size (c : content) : Z :=
  match c with
  | Blob b => Z.of_nat (length b)
  | Encoded f kw ims => encoded_size f kw ims
  end.

(** [os.path.getsize] *)
Definition path_getsize (path : string) : Py.py world Z :=
  w <- Py.get;;
  match files w !! path with
  | Some (File c) => Py.ret (content_size c)
  | Some (Dir n) => Py.ret n
  | None => Py.raise (Py.FileNotFoundError path)
  end.

End Codec.

(** Whether a directory sits at [path]. *)
Definition is_dir (fs : gmap string entry) (path : string) : bool :=
  match fs !! path with
  | Some (Dir _) => true
  | _ => false
  end.

(** The disk after the given files were stored one after the other. *)
Definition store (fs : gmap string entry) (jobs : list (string * content))
    : gmap string entry :=
  foldl (λ m job, <[job.1 := File job.2]> m) fs jobs.

(** How many of the given files can be stored, in order, before a path
    that is a directory stops the writing. *)
Fixpoint storable (fs : gmap string entry) (jobs : list (string * content)) : nat :=
  match jobs with
  | [] => O
  | job :: rest => if is_dir fs job.1 then O else Datatypes.S (storable fs rest)
  end.

(** Opening a path for writing and storing [c] there. *)
Definition write_file (path : string) (c : content) : Py.py world unit :=
  w <- Py.get;;
  match files w !! path with
  | Some (Dir _) => Py.raise (Py.IsADirectoryError path)
  | _ => Py.modify (λ w, World (<[path := File c]> (files w)) (stdout w))
  end.

End OS.


(** ** The Pillow calls the scripts make

    The library is modelled by what the scripts can observe of it. A call
    is a function of its arguments. [Image.open] fails on a path that holds
    no image, [resize] on a target without area, [save] on a path where a
    directory sits or whose extension names no format; otherwise the calls
    succeed, and [save] with [save_all] writes one frame for each image it
    is given. *)

Module PIL.
Import OS.

(** An opened image file: the frame the file is positioned at, with the
    frames before and after it. *)
Record handle := Handle {
  before : list image;
  current :> image;
  after : list image
}.

Definition all_frames (h : handle) : list image :=
  before h ++ current h :: after h.

(** What [Image.open] makes of the entry found at a path. *)
Definition open_entry (path : string) (e : option entry) : Py.result handle :=
  match e with
  | None => Py.Raise (Py.FileNotFoundError path)
  | Some (Dir _) => Py.Raise (Py.IsADirectoryError path)
  | Some (File (Blob _)) => Py.Raise (Py.UnidentifiedImageError path)
  | Some (File (Encoded _ _ [])) => Py.Raise (Py.UnidentifiedImageError path)
  | Some (File (Encoded _ _ (first :: rest))) => Py.Ok (Handle [] first rest)
  end.

(** [Image.open] *)
Definition Image_open (path : string) : Py.py world handle :=
  λ w, (open_entry path (files w !! path), w).

(** Whether [Image.open] succeeds on a path. *)
Definition opens (fs : gmap string entry) (path : string) : bool :=
  match open_entry path (fs !! path) with
  | Py.Ok _ => true
  | _ => false
  end.

(** [img.tell()] *)
Definition tell (h : handle) : nat := length (before h).

(** [img.seek(n)]: position the file at frame [n], [EOFError] past the end
    (the position is then unchanged). *)
Definition seek {S} (h : handle) (n : nat) : Py.py S handle :=
  match all_frames h !! n with
  | Some f => Py.ret (Handle (take n (all_frames h)) f (drop (Datatypes.S n) (all_frames h)))
  | None => Py.raise (Py.EOFError "no more images in GIF file")
  end.

(** [im.copy()] *)
Definition copy (im : image) : image := im.

(** [im.resize(size, filter)]; a target without area is refused. *)
Definition resize {S} (im : image) (target : Z * Z) (filter : string) : Py.py S image :=
  if (target.1 <? 1) || (target.2 <? 1)
  then Py.raise (Py.ValueError "height and width must be > 0")
  else Py.ret (Image (mode im) target (duration im)
                   (Resampled filter (size im) target (data im))).

(** What [im.resize(target, LANCZOS)] returns for a target with area. *)
Definition resized (im : image) (target : Z * Z) : image :=
  Image (mode im) target (duration im)
        (Resampled "LANCZOS" (size im) target (data im)).

(** [Image.new(mode, size, color)] *)
Definition Image_new (m : string) (sz : Z * Z) (color : Z * Z * Z) : image :=
  Image m sz None (Solid color).

(** [im.getbands()] for the modes a PNG file decodes to. *)
Definition getbands (m : string) : list string :=
  if String.eqb m "RGBA" then ["R"; "G"; "B"; "A"]
  else if String.eqb m "RGB" then ["R"; "G"; "B"]
  else if String.eqb m "LA" then ["L"; "A"]
  else [m].

(** [im.split()] *)
Definition split (im : image) : list image :=
  imap (λ i _, Image "L" (size im) (duration im) (Band i (data im)))
       (getbands (mode im)).

(** [background.paste(im, mask=mask)]: the image [background] becomes. *)
Definition paste (background im mask : image) : image :=
  Image (mode background) (size background) (duration background)
        (Pasted (data background) (data im) (data mask)).

(** [im.convert(mode)] *)
Definition convert (im : image) (m : string) : image :=
  Image m (size im) (duration im) (Converted (mode im) m (data im)).

(** The format [save] picks from the file name when none is given. *)
Definition EXTENSION : list (string * string) :=
  [(".png", "PNG"); (".gif", "GIF"); (".webp", "WEBP")].

Definition format_of (path : string) (format : option string) : option string :=
  match format with
  | Some f => Some f
  | None => snd <$> List.find (λ e, Text.endswith path (fst e)) EXTENSION
  end.

Definition kwarg (kwargs : list (string * Z)) (key : string) : option Z :=
  snd <$> List.find (λ kv, String.eqb (fst kv) key) kwargs.

(** [im.save(path, format, append_images=..., **kwargs)]: one file holding
    [im], and with [save_all] also the appended images. *)
Definition save (im : image) (path : string) (format : option string)
    (append_images : list image) (kwargs : list (string * Z)) : Py.py world unit :=
  match format_of path format with
  | None => Py.raise (Py.ValueError ("unknown file extension: " +:+ path))
  | Some f =>
      write_file path
        (Encoded f kwargs
           (if bool_decide (kwarg kwargs "save_all" = Some 1)
            then im :: append_images else [im]))
  end.

End PIL.

(** ** optimize_images.py *)

Module OptimizeImages.
Import OS PIL.

Section Script.

Variable encoded_size : string → list (string * Z) → list image → Z.

Definition sizes : list (string * (Z * Z)) :=
  [("profile-200.png", (200, 200));
   ("profile-400.png", (400, 400));
   ("profile-200.webp", (200, 200));
   ("profile-400.webp", (400, 400))].

Definition optimize_profile_image : Py.py world unit :=
  let input_path := "profile.png" in
  found <- path_exists input_path;;
  if negb found then
    print [Lit "Error: "; Lit input_path; Lit " not found"]
  else
    img <- Image_open input_path;;
    original_size <- path_getsize encoded_size input_path;;
    print [Lit "Original: "; Pair (size img); Lit ", "; KB original_size; Lit "KB"];;
    img_rgb <- (if String.eqb (mode img) "RGBA" then
                  let background := Image_new "RGB" (size img) (255, 255, 255) in
                  mask <- Py.index (split img) 3;;
                  Py.ret (paste background img mask)
                else
                  Py.ret (convert img "RGB"));;
    Py.for_each sizes (λ '(filename, target),
      resized <- resize img target "LANCZOS";;
      (if Text.endswith filename ".webp"
       then save resized filename (Some "WebP") [] [("quality", 85); ("method", 6)]
       else save resized filename (Some "PNG") [] [("optimize", 1)]);;
      file_size <- path_getsize encoded_size filename;;
      print [Lit "Created: "; Lit filename; Lit " - "; KB file_size; Lit "KB"]);;
    save img "profile-optimized.png" (Some "PNG") [] [("optimize", 1)];;
    optimized_size <- path_getsize encoded_size "profile-optimized.png";;
    print [Lit (Text.nl +:+ "Optimized original: profile-optimized.png - ");
           KB optimized_size; Lit "KB"];;
    input_size <- path_getsize encoded_size input_path;;
    print [Lit "Savings: "; KB (input_size - optimized_size); Lit "KB"];;
    print [Lit (Text.nl +:+ "✅ Optimization complete!")];;
    print [Lit (Text.nl +:+ "Next steps:")];;
    print [Lit "1. Replace profile.png with profile-optimized.png"];;
    print [Lit "2. Update HTML to use responsive images with <picture> element"].


(** The file the loop stores for one entry of [sizes]. *)
Definition job_of (im : image) (e : string * (Z * Z)) : string * content :=
  (e.1, if Text.endswith e.1 ".webp"
        then Encoded "WebP" [("quality", 85); ("method", 6)] [resized im e.2]
        else Encoded "PNG" [("optimize", 1)] [resized im e.2]).

(** The files a complete run stores for the image [im], in the order in
    which it stores them. *)
Definition resized_outputs (im : image) : list (string * content) :=
  [("profile-200.png", Encoded "PNG" [("optimize", 1)] [resized im (200, 200)]);
   ("profile-400.png", Encoded "PNG" [("optimize", 1)] [resized im (400, 400)]);
   ("profile-200.webp",
      Encoded "WebP" [("quality", 85); ("method", 6)] [resized im (200, 200)]);
   ("profile-400.webp",
      Encoded "WebP" [("quality", 85); ("method", 6)] [resized im (400, 400)])].

Definition optimized_output (im : image) : string * content :=
  ("profile-optimized.png", Encoded "PNG" [("optimize", 1)] [im]).

Definition outputs (im : image) : list (string * content) :=
  resized_outputs im ++ [optimized_output im].

Definition output_paths : list string :=
  ["profile-200.png"; "profile-400.png"; "profile-200.webp";
   "profile-400.webp"; "profile-optimized.png"].

(** The lines a run prints. *)
Definition original_line (im : image) (bytes : Z) : line :=
  [Lit "Original: "; Pair (size im); Lit ", "; KB bytes; Lit "KB"].

Definition created_line (job : string * content) : line :=
  [Lit "Created: "; Lit job.1; Lit " - ";
   KB (content_size encoded_size job.2); Lit "KB"].

Definition closing_lines (im : image) (bytes : Z) : list line :=
  let optimized := content_size encoded_size (optimized_output im).2 in
  [[Lit (Text.nl +:+ "Optimized original: profile-optimized.png - ");
    KB optimized; Lit "KB"];
   [Lit "Savings: "; KB (bytes - optimized); Lit "KB"];
   [Lit (Text.nl +:+ "✅ Optimization complete!")];
   [Lit (Text.nl +:+ "Next steps:")];
   [Lit "1. Replace profile.png with profile-optimized.png"];
   [Lit "2. Update HTML to use responsive images with <picture> element"]].

(** The lines printed by a run that stored the first [k] outputs. *)
Definition report (im : image) (bytes : Z) (k : nat) : list line :=
  original_line im bytes
  :: (created_line <$> take k (resized_outputs im))
  ++ (if decide (k = 5%nat) then closing_lines im bytes else []).

(** The module body: the guarded import, the function definition, and the
    call under [if __name__ == '__main__']. *)
Definition module (pillow_installed : bool) (__name__ : string) : Py.py world unit :=
  (if pillow_installed then Py.ret tt
   else
     print [Lit "Error: Pillow not installed"];;
     print [Lit "Install with: pip install Pillow"];;
     Py.raise (Py.SystemExit 1));;
  if String.eqb __name__ "__main__" then optimize_profile_image else Py.ret tt.

End Script.

End OptimizeImages.

(** ** resize_gif.py *)

Module ResizeGif.
Import OS PIL.

(** The variables the frame loop reads and updates. *)
Record vars := Vars {
  img : handle;
  frames : list image;
  frame_count : Z
}.

Definition max_frames : Z := 30.

(** The body of the [while] loop. *)
Definition loop_body : Py.py vars unit :=
  v <- Py.get;;
  resized <- resize (copy (img v))
               ((size (img v)).1 / 2, (size (img v)).2 / 2) "LANCZOS";;
  Py.modify (λ v, Vars (img v) (frames v ++ [resized]) (frame_count v));;
  v <- Py.get;;
  img' <- seek (img v) (tell (img v) + 1);;
  Py.modify (λ v, Vars img' (frames v) (frame_count v));;
  Py.modify (λ v, Vars (img v) (frames v) (frame_count v + 1)).

(** [try: while frame_count < max_frames: ... except EOFError: pass] *)
Definition extract_frames (fuel : nat) : Py.py vars unit :=
  Py.try_except_EOFError
    (Py.while fuel (λ v, frame_count v <? max_frames) loop_body).

(** Running a block over its own variables inside a larger computation. *)
Definition with_vars {S L A} (init : L) (m : Py.py L A) : Py.py S L :=
  λ s, match m init with
       | (Py.Ok _, l) => (Py.Ok l, s)
       | (Py.Raise e, _) => (Py.Raise e, s)
       | (Py.OutOfFuel, _) => (Py.OutOfFuel, s)
       end.

(** The module body. The loop is given [fuel] iterations; [module] gives it
    as many as the loop bound allows. *)
Definition module_with (fuel : nat) (pillow_installed : bool) (__name__ : string)
    : Py.py world unit :=
  (if pillow_installed then Py.ret tt
   else Py.raise (Py.ModuleNotFoundError "PIL"));;
  opened <- Image_open "assets/svg/pathway.gif";;
  v <- with_vars (Vars opened [] 0) (extract_frames fuel);;
  first <- Py.index (frames v) 0;;
  save first "assets/svg/pathway_temp.gif" None (drop 1 (frames v))
    [("save_all", 1); ("duration", default 100 (duration (img v)));
     ("loop", 0); ("optimize", 1)];;
  print [Lit "Created temporary GIF with ";
         Num (Z.of_nat (length (frames v))); Lit " frames"].

Definition module : bool → string → Py.py world unit :=
  module_with (Z.to_nat max_frames).

(** The frame the loop appends for the frame [im] of the source. *)
Definition halved (im : image) : image :=
  resized im ((size im).1 / 2, (size im).2 / 2).

(** A frame both of whose halved dimensions are at least one pixel. *)
Definition halvable (im : image) : Prop :=
  2 ≤ (size im).1 ∧ 2 ≤ (size im).2.

(** The keyword arguments of the final [save], for a frame duration. *)
Definition gif_kwargs (d : Z) : list (string * Z) :=
  [("save_all", 1); ("duration", d); ("loop", 0); ("optimize", 1)].

(** The line the script prints for [n] collected frames. *)
Definition gif_line (n : nat) : line :=
  [Lit "Created temporary GIF with "; Num (Z.of_nat n); Lit " frames"].

Definition input_path : string := "assets/svg/pathway.gif".
Definition output_path : string := "assets/svg/pathway_temp.gif".

End ResizeGif.

(** ** Running a script as a process *)

Module Process.
Import OS.

Record outcome := Outcome {
  status : option Z;
  out : list line;
  err : option string;
  disk : gmap string entry
}.

(** Start the interpreter on a module body with the given files on disk. *)
Definition run (body : Py.py world unit) (fs : gmap string entry) : outcome :=
  let '(r, w) := body (World fs []) in
  Outcome (Py.exit_status r) (stdout w) (Py.stderr r) (files w).


End Process.

(** ** Frontmatter extraction *)

Module Frontmatter.

(** Modelled from the spec: the frontmatter extractor of the markdown
    converter, whose source file is not among the sources at hand. A
    metadata value is a plain string, or the list of strings of [tags]
    (section 3, Frontmatter). *)
Inductive value :=
| Str (s : string)
| StrList (l : list string).

(** Modelled from the spec: the white space that trimming removes (space,
    tab, line feed, vertical tab, form feed, carriage return). *)
Definition is_space (c : ascii) : bool :=
  let n := nat_of_ascii c in
  Nat.eqb n 32 || (Nat.leb 9 n && Nat.leb n 13).

Fixpoint lstrip (s : string) : string :=
  match s with
  | String c s' => if is_space c then lstrip s' else s
  | EmptyString => EmptyString
  end.

Fixpoint rstrip (s : string) : string :=
  match s with
  | String c s' =>
      match rstrip s' with
      | EmptyString => if is_space c then EmptyString else String c EmptyString
      | r => String c r
      end
  | EmptyString => EmptyString
  end.

(** Modelled from the spec: "trimmed" (section 4.1). *)
Definition strip (s : string) : string := rstrip (lstrip s).

(** The pieces of [s] between the occurrences of [sep]; never empty. *)
Fixpoint split_on (sep : ascii) (s : string) : list string :=
  match s with
  | EmptyString => [EmptyString]
  | String c s' =>
      if Ascii.eqb c sep then EmptyString :: split_on sep s'
      else match split_on sep s' with
           | piece :: pieces => String c piece :: pieces
           | [] => [String c EmptyString]
           end
  end.

Definition lines (s : string) : list string := split_on (ascii_of_nat 10) s.

(** The lines put back together, a line feed between two of them. *)
Fixpoint unlines (ls : list string) : string :=
  match ls with
  | [] => EmptyString
  | [l] => l
  | l :: rest => l +:+ Text.nl +:+ unlines rest
  end.

(** Modelled from the spec: "split on the first [:]" (section 4.1); the
    text before and after the first colon of a line. *)
Fixpoint split_colon (s : string) : option (string * string) :=
  match s with
  | EmptyString => None
  | String c s' =>
      if Ascii.eqb c ":" then Some (EmptyString, s')
      else match split_colon s' with
           | Some (k, v) => Some (String c k, v)
           | None => None
           end
  end.

Fixpoint last_char (s : string) : option ascii :=
  match s with
  | EmptyString => None
  | String c EmptyString => Some c
  | String _ s' => last_char s'
  end.

Fixpoint drop_last (s : string) : string :=
  match s with
  | EmptyString => EmptyString
  | String c EmptyString => EmptyString
  | String c s' => String c (drop_last s')
  end.

(** The double quote (code 34) and the single quote (code 39). *)
Definition is_quote (c : ascii) : bool :=
  Ascii.eqb c (ascii_of_nat 34) || Ascii.eqb c (ascii_of_nat 39).

(** Modelled from the spec: "a single layer of surrounding matching quotes
    stripped" (section 4.1). *)
Definition unquote (s : string) : string :=
  match s with
  | String q (String c rest) =>
      if is_quote q && bool_decide (last_char (String c rest) = Some q)
      then drop_last (String c rest) else s
  | _ => s
  end.

Section Parser.

(** Modelled from the spec: the JSON parser the extractor calls on a
    bracketed [tags] value (section 4.1), a library function: the strings
    of the array, or nothing when the text is not one. *)
Variable json_array : string → option (list string).

(** Modelled from the spec: "splitting on [,], trimming each element". *)
Definition split_commas (s : string) : list string :=
  strip <$> split_on "," s.

(** Modelled from the spec: "stripping the outer brackets". *)
Definition strip_brackets (s : string) : string :=
  match s with
  | String "[" rest =>
      if bool_decide (last_char rest = Some "]"%char) then drop_last rest else rest
  | _ => s
  end.

(** Modelled from the spec: the value of [tags], "parsed as a JSON array
    if the raw value looks like one, else split on commas", with the
    comma split as the fallback of a failed parse (sections 3 and 4.1). *)
Definition parse_tags (raw : string) : list string :=
  if Text.startswith raw "[" then
    match json_array raw with
    | Some tags => tags
    | None => split_commas (strip_brackets raw)
    end
  else split_commas raw.

(** Modelled from the spec: the parsing rule per line (section 4.1). A
    line without a colon holds no pair. *)
Definition parse_line (l : string) : option (string * value) :=
  match split_colon l with
  | None => None
  | Some (lhs, rhs) =>
      let key := strip lhs in
      let raw := unquote (strip rhs) in
      Some (key, if String.eqb key "tags" then StrList (parse_tags raw) else Str raw)
  end.

(** Modelled from the spec: "duplicate keys: last occurrence wins"
    (section 4.1). *)
Definition parse_block (block : list string) : gmap string value :=
  foldl (λ m l, match parse_line l with
                | Some (k, v) => <[k := v]> m
                | None => m
                end) ∅ block.

(** Modelled from the spec: the closing delimiter is the first line that
    is exactly [---] and that a line feed ends (sections 4.1 and 6); the
    lines before it, and the lines after it. *)
Fixpoint find_close (ls : list string) : option (list string * list string) :=
  match ls with
  | [] => None
  | l :: rest =>
      if String.eqb l "---" then
        match rest with
        | [] => None
        | _ => Some ([], rest)
        end
      else match find_close rest with
           | Some (block, body) => Some (l :: block, body)
           | None => None
           end
  end.

(** Modelled from the spec: the contract of the Frontmatter Extractor
    (section 4.1). The block starts at the very first line, which is
    exactly [---]; without a block the result is no metadata and the text
    unchanged; with one, the metadata and the text after the closing
    line. *)
Definition extract_frontmatter (content : string)
    : option (gmap string value) * string :=
  match lines content with
  | first :: rest =>
      if String.eqb first "---" then
        match find_close rest with
        | Some (block, body) => (Some (parse_block block), unlines body)
        | None => (None, content)
        end
      else (None, content)
  | [] => (None, content)
  end.

End Parser.

(** The text of one line of a block, without its line feed. *)
Definition line_text (kv : string * string) : string := kv.1 +:+ ":" +:+ kv.2.

(** A document put together from key and value texts and a body. *)
Definition block_line (kv : string * string) : string :=
  kv.1 +:+ ":" +:+ kv.2 +:+ Text.nl.

Fixpoint block_lines (kvs : list (string * string)) : string :=
  match kvs with
  | [] => EmptyString
  | kv :: rest => block_line kv +:+ block_lines rest
  end.

Definition document (kvs : list (string * string)) (body : string) : string :=
  "---" +:+ Text.nl +:+ block_lines kvs +:+ "---" +:+ Text.nl +:+ body.

Fixpoint mentions (c : ascii) (s : string) : bool :=
  match s with
  | EmptyString => false
  | String c' s' => Ascii.eqb c' c || mentions c s'
  end.

(** A key has no colon and no line feed, a value no line feed. *)
Definition valid_pair (kv : string * string) : Prop :=
  mentions ":" kv.1 = false ∧
  mentions (ascii_of_nat 10) kv.1 = false ∧
  mentions (ascii_of_nat 10) kv.2 = false.

End Frontmatter.


(** ** Sample disks *)

Module Samples.
Import OS.

(** An encoder whose files grow with the number of frames and options. *)
Definition codec (format : string) (kwargs : list (string * Z))
    (frames : list image) : Z :=
  4096 * Z.of_nat (length frames) + 16 * Z.of_nat (length kwargs).

Definition photo : image :=
  Image "RGBA" (640, 480) None (Raster [12; 200; 31; 255]).

Definition png (im : image) : entry := File (Encoded "PNG" [] [im]).

(** A disk holding the profile picture. *)
Definition photo_disk : gmap string entry :=
  {[ "profile.png" := png photo ]}.




(** Frame [k] of an animation of the given size. *)
Definition cel (sz : Z * Z) (k : nat) : image :=
  Image "P" sz (Some 40) (Raster [Z.of_nat k]).

(** A disk holding an animation of [n] frames at the path resize_gif reads. *)
Definition gif_disk (sz : Z * Z) (n : nat) : gmap string entry :=
  {[ "assets/svg/pathway.gif" := File (Encoded "GIF" [] (cel sz <$> seq 0 n)) ]}.


(** A disk where a directory sits at [profile.png]. *)
Definition dir_disk : gmap string entry :=
  {[ "profile.png" := Dir 4096 ]}.

(** A disk holding a second, animated picture at [profile.png]: the same
    first frame as [photo_disk], and one more frame. *)
Definition animated_disk : gmap string entry :=
  {[ "profile.png" := File (Encoded "PNG" [] [photo; cel (640, 480) 1]) ]}.

(** A disk holding an animation, with a directory at the path resize_gif
    writes. *)
Definition blocked_gif_disk : gmap string entry :=
  <[ "assets/svg/pathway_temp.gif" := Dir 4096 ]> (gif_disk (5, 7) 3).

(** The document of the extraction scenario. *)
Definition post : list (string * string) * string :=
  ([("title", " Hello"); ("author", " A"); ("tags", " [a, b]")],
   "# Hello" +:+ Text.nl +:+ "Some *text*.").

End Samples.

(** * Lemmas *)

(** ** Sequencing *)

Section Monad.
Context {St A B : Type}.
Lemma bind_ok (m : Py.py St A) (k : A → Py.py St B) s a s' :
  m s = (Py.Ok a, s') → Py.bind m k s = k a s'.
Proof. unfold Py.bind. by intros ->. Qed.
Lemma bind_raise (m : Py.py St A) (k : A → Py.py St B) s e s' :
  m s = (Py.Raise e, s') → Py.bind m k s = (Py.Raise e, s').
Proof. unfold Py.bind. by intros ->. Qed.
End Monad.

Section Extensionality.
Context {St A B : Type}.
Lemma bind_ext (m : Py.py St A) (k1 k2 : A → Py.py St B) s :
  (∀ a s', k1 a s' = k2 a s') → Py.bind m k1 s = Py.bind m k2 s.
Proof. intros H. unfold Py.bind. destruct (m s) as [[a| |] s']; auto. Qed.
End Extensionality.

(** ** Files and writes *)

Section Disk.
Import OS.

Lemma is_dir_insert_file (fs : gmap string entry) p q c :
  is_dir (<[p := File c]> fs) q = if decide (p = q) then false else is_dir fs q.
Proof.
  unfold is_dir. rewrite lookup_insert. destruct (decide (p = q)); done.
Qed.

Lemma is_dir_false_write (w : world) p c :
  is_dir (files w) p = false →
  write_file p c w = (Py.Ok tt, World (<[p := File c]> (files w)) (stdout w)).
Proof.
  unfold is_dir, write_file, Py.bind, Py.get, Py.modify. destruct w as [fs o]; simpl.
  destruct (fs !! p) as [[|]|]; done.
Qed.

Lemma is_dir_true_write (w : world) p c :
  is_dir (files w) p = true →
  write_file p c w = (Py.Raise (Py.IsADirectoryError p), w).
Proof.
  unfold is_dir, write_file, Py.bind, Py.get, Py.raise. destruct w as [fs o]; simpl.
  destruct (fs !! p) as [[|]|]; done.
Qed.

End Disk.

(** ** Steps of optimize_images.py *)

Section OptimizeSteps.
Import OS PIL OptimizeImages.

Variable esz : string → list (string * Z) → list image → Z.

Lemma getsize_file (w : world) p c :
  files w !! p = Some (File c) →
  path_getsize esz p w = (Py.Ok (content_size esz c), w).
Proof. intros H. unfold path_getsize, Py.bind, Py.get. by rewrite H. Qed.

Lemma exists_spec (w : world) p :
  path_exists p w = (Py.Ok (bool_decide (is_Some (files w !! p))), w).
Proof. done. Qed.

Lemma open_image (w : world) p f kw im rest :
  files w !! p = Some (File (Encoded f kw (im :: rest))) →
  Image_open p w = (Py.Ok (Handle [] im rest), w).
Proof. intros H. unfold Image_open. by rewrite H. Qed.

Lemma print_spec (w : world) l :
  print l w = (Py.Ok tt, World (files w) (stdout w ++ [l])).
Proof. done. Qed.

Lemma save_spec (im : image) p f kw (w : world) :
  kwarg kw "save_all" ≠ Some 1 →
  save im p (Some f) [] kw w =
  if is_dir (files w) p then (Py.Raise (Py.IsADirectoryError p), w)
  else (Py.Ok tt, World (<[p := File (Encoded f kw [im])]> (files w)) (stdout w)).
Proof.
  intros Hk. unfold save, format_of. rewrite bool_decide_eq_false_2 by done.
  destruct (is_dir (files w) p) eqn:Hd.
  - by rewrite is_dir_true_write.
  - by rewrite is_dir_false_write.
Qed.

Lemma save_spec_bind (im : image) p f kw (w : world) (k : Py.py world unit) :
  kwarg kw "save_all" ≠ Some 1 →
  (save im p (Some f) [] kw;; k) w =
  if is_dir (files w) p then (Py.Raise (Py.IsADirectoryError p), w)
  else k (World (<[p := File (Encoded f kw [im])]> (files w)) (stdout w)).
Proof.
  intros Hk. unfold Py.bind. rewrite save_spec by done.
  by destruct (is_dir (files w) p).
Qed.

Lemma resize_spec {St} (im : image) (t : Z * Z) (s : St) :
  1 ≤ t.1 → 1 ≤ t.2 → resize im t "LANCZOS" s = (Py.Ok (resized im t), s).
Proof.
  intros H1 H2. unfold resize.
  destruct (Z.ltb_spec (t.1) 1); [lia|]. destruct (Z.ltb_spec (t.2) 1); [lia|]. done.
Qed.

(** One pass of the loop over [sizes]. *)
Lemma save_resized (im : image) (w : world) p t f kw :
  1 ≤ t.1 → 1 ≤ t.2 → kwarg kw "save_all" ≠ Some 1 →
  (resized <- resize im t "LANCZOS";;
   save resized p (Some f) [] kw;;
   file_size <- path_getsize esz p;;
   print [Lit "Created: "; Lit p; Lit " - "; KB file_size; Lit "KB"]) w =
  if is_dir (files w) p then (Py.Raise (Py.IsADirectoryError p), w)
  else (Py.Ok tt,
        World (<[p := File (Encoded f kw [resized im t])]> (files w))
              (stdout w ++ [created_line esz (p, Encoded f kw [resized im t])])).
Proof.
  intros H1 H2 Hk.
  erewrite bind_ok by by apply resize_spec.
  destruct (is_dir (files w) p) eqn:Hd.
  - erewrite bind_raise; [done|]. by rewrite save_spec, Hd.
  - erewrite bind_ok by by rewrite save_spec, Hd.
    erewrite bind_ok by (apply getsize_file; apply lookup_insert_eq).
    reflexivity.
Qed.

Lemma rgb_branch (img : image) (w : world) :
  ∃ img_rgb,
    (if String.eqb (mode img) "RGBA" then
       let background := Image_new "RGB" (size img) (255, 255, 255) in
       mask <- Py.index (split img) 3;;
       Py.ret (paste background img mask)
     else Py.ret (convert img "RGB")) w = (Py.Ok img_rgb, w).
Proof.
  destruct (String.eqb_spec (mode img) "RGBA") as [Hm|Hm]; [|by eexists].
  unfold split, getbands. rewrite Hm. simpl. by eexists.
Qed.


Lemma is_dir_after_write (fs : gmap string entry) p c q :
  is_dir fs p = false → is_dir (<[p := File c]> fs) q = is_dir fs q.
Proof.
  intros Hp. rewrite is_dir_insert_file. destruct (decide (p = q)); congruence.
Qed.

Lemma storable_after_write (fs : gmap string entry) p c jobs :
  is_dir fs p = false → storable (<[p := File c]> fs) jobs = storable fs jobs.
Proof.
  intros Hp. induction jobs as [|job jobs IH]; [done|].
  cbn [storable]. by rewrite is_dir_after_write, IH.
Qed.

Lemma storable_le (fs : gmap string entry) jobs :
  (storable fs jobs ≤ length jobs)%nat.
Proof.
  induction jobs as [|job jobs IH]; cbn [storable length]; [lia|].
  destruct (is_dir fs job.1); lia.
Qed.

Lemma storable_app (fs : gmap string entry) jobs more :
  storable fs (jobs ++ more) =
  if decide (storable fs jobs = length jobs)
  then (length jobs + storable fs more)%nat else storable fs jobs.
Proof.
  induction jobs as [|job jobs IH]; [done|].
  cbn [storable length app]. destruct (is_dir fs job.1); [done|].
  rewrite IH. repeat case_decide; lia.
Qed.

Lemma store_app (fs : gmap string entry) jobs more :
  store fs (jobs ++ more) = store (store fs jobs) more.
Proof. apply foldl_app. Qed.

Lemma loop_pass (im : image) (e : string * (Z * Z)) (w : world) :
  1 ≤ e.2.1 → 1 ≤ e.2.2 →
  (let '(filename, target) := e in
   resized <- resize im target "LANCZOS";;
   (if Text.endswith filename ".webp"
    then save resized filename (Some "WebP") [] [("quality", 85); ("method", 6)]
    else save resized filename (Some "PNG") [] [("optimize", 1)]);;
   file_size <- path_getsize esz filename;;
   print [Lit "Created: "; Lit filename; Lit " - "; KB file_size; Lit "KB"]) w =
  if is_dir (files w) e.1 then (Py.Raise (Py.IsADirectoryError e.1), w)
  else (Py.Ok tt,
        World (<[e.1 := File (job_of im e).2]> (files w))
              (stdout w ++ [created_line esz (job_of im e)])).
Proof.
  destruct e as [p t]. intros H1 H2. unfold job_of. cbn [fst snd] in *.
  destruct (Text.endswith p ".webp"); by rewrite save_resized.
Qed.

Lemma loop_spec (im : image) (l : list (string * (Z * Z))) (w : world) :
  Forall (λ e, 1 ≤ e.2.1 ∧ 1 ≤ e.2.2) l →
  Py.for_each l (λ '(filename, target),
    resized <- resize im target "LANCZOS";;
    (if Text.endswith filename ".webp"
     then save resized filename (Some "WebP") [] [("quality", 85); ("method", 6)]
     else save resized filename (Some "PNG") [] [("optimize", 1)]);;
    file_size <- path_getsize esz filename;;
    print [Lit "Created: "; Lit filename; Lit " - "; KB file_size; Lit "KB"]) w =
  let jobs := job_of im <$> l in
  let k := storable (files w) jobs in
  (match jobs !! k with
   | Some job => Py.Raise (Py.IsADirectoryError job.1)
   | None => Py.Ok tt
   end,
   World (store (files w) (take k jobs))
         (stdout w ++ (created_line esz <$> take k jobs))).
Proof.
  intros Hl. revert w. induction Hl as [|e l [H1 H2] Hl IH]; intros w.
  - cbn. rewrite app_nil_r. by destruct w.
  - cbn [Py.for_each fmap list_fmap storable]. fold (@fmap list _).
    unfold Py.bind at 1. rewrite loop_pass by done.
    change ((job_of im e).1) with e.1.
    destruct (is_dir (files w) e.1) eqn:Hd.
    + cbn. rewrite app_nil_r. by destruct w.
    + rewrite IH. cbn [files stdout].
      rewrite storable_after_write by done.
      cbn [lookup list_lookup take fmap list_fmap store foldl]. 
      rewrite <- app_assoc. done.
Qed.

Lemma run_opened fs fmt kw im rest out0 :
  fs !! "profile.png" = Some (File (Encoded fmt kw (im :: rest))) →
  let bytes := esz fmt kw (im :: rest) in
  let k := storable fs (outputs im) in
  optimize_profile_image esz (World fs out0) =
    (match outputs im !! k with
     | Some job => Py.Raise (Py.IsADirectoryError job.1)
     | None => Py.Ok tt
     end,
     World (store fs (take k (outputs im))) (out0 ++ report esz im bytes k)).
Proof.
  intros Hin bytes k.
  unfold optimize_profile_image.
  erewrite bind_ok by apply exists_spec.
  cbn [files]. rewrite Hin. rewrite bool_decide_eq_true_2 by eauto. cbn [negb].
  erewrite bind_ok by (eapply open_image; exact Hin).
  erewrite bind_ok by (eapply getsize_file; exact Hin).
  erewrite bind_ok by apply print_spec.
  destruct (rgb_branch im (World fs (out0 ++ [original_line im bytes]))) as [rgb Hrgb].
  cbn [current files stdout content_size].
  erewrite bind_ok by apply Hrgb. clear rgb Hrgb.
  unfold Py.bind at 1. rewrite loop_spec by (repeat constructor; cbn; lia).
  cbn [files stdout].
  change (job_of im <$> sizes) with (resized_outputs im).
  subst k. unfold outputs. rewrite storable_app.
  pose proof (storable_le fs (resized_outputs im)) as Hle.
  destruct (decide (storable fs (resized_outputs im) = length (resized_outputs im)))
    as [Hall|Hsome].
  - rewrite Hall. cbn [length]. rewrite lookup_ge_None_2 by (cbn; lia).
    rewrite firstn_all2 by (cbn; lia).
    cbn [storable optimized_output fst].
    assert (is_dir (store fs (resized_outputs im)) "profile-optimized.png"
            = is_dir fs "profile-optimized.png") as Hopt.
    { unfold store, resized_outputs. cbn [foldl fst snd].
      rewrite !is_dir_insert_file. repeat (rewrite decide_False by done). done. }
    rewrite save_spec_bind by done. cbn [files stdout]. rewrite Hopt.
    destruct (is_dir fs "profile-optimized.png") eqn:Hd.
    + cbn [Nat.add length resized_outputs]. 
      unfold report. rewrite decide_False by done. rewrite app_nil_r.
      rewrite <- app_assoc. reflexivity.
    + erewrite bind_ok by (apply getsize_file; apply lookup_insert_eq).
      erewrite bind_ok by apply print_spec.
      erewrite bind_ok.
      2:{ apply getsize_file. cbn [files]. unfold store, resized_outputs.
          cbn [foldl fst snd]. rewrite !lookup_insert_ne by done. exact Hin. }
      unfold report. rewrite decide_True by done.
      unfold print, Py.modify, Py.bind. cbn [files stdout].
      rewrite <- !app_assoc. reflexivity.
  - assert (storable fs (resized_outputs im) < length (resized_outputs im))%nat
      as Hlt by lia.
    rewrite lookup_app_l by done. rewrite take_app_le by exact Hle.
    destruct (lookup_lt_is_Some_2 _ _ Hlt) as [job Hjob]. rewrite Hjob.
    unfold report. rewrite decide_False by (intros E; rewrite E in Hlt; cbn in Hlt; lia).
    rewrite app_nil_r, <- app_assoc. reflexivity.
Qed.
Lemma run_missing fs out0 :
  fs !! "profile.png" = None →
  optimize_profile_image esz (World fs out0) =
  (Py.Ok tt, World fs (out0 ++ [[Lit "Error: "; Lit "profile.png"; Lit " not found"]])).
Proof.
  intros Hin. unfold optimize_profile_image.
  erewrite bind_ok by apply exists_spec.
  cbn [files]. rewrite Hin. rewrite bool_decide_eq_false_2 by (by intros [? ?]).
  done.
Qed.

Lemma run_unreadable fs out0 err :
  is_Some (fs !! "profile.png") →
  open_entry "profile.png" (fs !! "profile.png") = Py.Raise err →
  optimize_profile_image esz (World fs out0) = (Py.Raise err, World fs out0).
Proof.
  intros Hin Herr. unfold optimize_profile_image.
  erewrite bind_ok by apply exists_spec.
  cbn [files]. rewrite bool_decide_eq_true_2 by done. cbn [negb].
  erewrite bind_raise; [done|]. unfold Image_open. cbn [files]. by rewrite Herr.
Qed.

Lemma open_entry_raises path e err :
  open_entry path e = Py.Raise err → Py.exit_status (A:=unit) (Py.Raise err) = Some 1.
Proof.
  destruct e as [[[b|f kw [|first rest]]|n]|]; intros [= <-]; done.
Qed.

Lemma open_entry_cases path e :
  (∃ f kw first rest, e = Some (File (Encoded f kw (first :: rest)))
                      ∧ open_entry path e = Py.Ok (Handle [] first rest))
  ∨ (∃ err, open_entry path e = Py.Raise err).
Proof.
  destruct e as [[[b|f kw [|first rest]]|n]|]; eauto 10.
Qed.

Lemma module_main fs name :
  OptimizeImages.module esz true name (World fs []) =
  if String.eqb name "__main__" then optimize_profile_image esz (World fs [])
  else (Py.Ok tt, World fs []).
Proof. unfold OptimizeImages.module, Py.bind, Py.ret. by destruct (String.eqb _ _). Qed.


Lemma run_module_main fs :
  Process.run (OptimizeImages.module esz true "__main__") fs =
  Process.run (optimize_profile_image esz) fs.
Proof. unfold Process.run. by rewrite module_main. Qed.

Lemma storable_agree (fs1 fs2 : gmap string entry) jobs :
  Forall (λ p, is_dir fs1 p = is_dir fs2 p) (fst <$> jobs) →
  storable fs1 jobs = storable fs2 jobs.
Proof.
  induction jobs as [|job jobs IH]; [done|].
  rewrite fmap_cons, Forall_cons. intros [Hd Hrest].
  cbn [storable]. rewrite Hd, IH; done.
Qed.



Lemma import_only name fs :
  name ≠ "__main__" →
  Process.run (OptimizeImages.module esz true name) fs =
  Process.Outcome (Some 0) [] None fs.
Proof.
  intros Hname. unfold Process.run. rewrite module_main.
  by destruct (String.eqb_spec name "__main__").
Qed.

End OptimizeSteps.

(** ** Steps of resize_gif.py *)

Section ResizeGifSteps.
Import OS PIL ResizeGif.

Lemma seek_next {St} bef cur x aft (s : St) :
  seek (Handle bef cur (x :: aft)) (tell (Handle bef cur (x :: aft)) + 1) s =
  (Py.Ok (Handle (bef ++ [cur]) x aft), s).
Proof.
  unfold seek, tell, all_frames. cbn [before current after].
  assert (bef ++ cur :: x :: aft = (bef ++ [cur]) ++ x :: aft) as ->
    by (by rewrite <- app_assoc).
  assert (length bef + 1 = length (bef ++ [cur]))%nat as ->
    by (rewrite length_app; cbn [length]; lia).
  rewrite list_lookup_middle by done.
  rewrite take_app_length.
  assert ((bef ++ [cur]) ++ x :: aft = ((bef ++ [cur]) ++ [x]) ++ aft) as ->
    by (by rewrite <- (app_assoc _ [x])).
  assert (Datatypes.S (length (bef ++ [cur])) = length ((bef ++ [cur]) ++ [x])) as ->
    by (rewrite (length_app _ [x]); cbn [length]; lia).
  by rewrite drop_app_length.
Qed.

Lemma seek_end {St} bef cur (s : St) :
  seek (Handle bef cur []) (tell (Handle bef cur []) + 1) s =
  (Py.Raise (Py.EOFError "no more images in GIF file"), s).
Proof.
  unfold seek, tell, all_frames. cbn [before current after].
  rewrite lookup_ge_None_2; [done|]. rewrite length_app. cbn. lia.
Qed.

Lemma resize_halved {St} (im : image) (s : St) :
  halvable im →
  resize (copy im) ((size im).1 / 2, (size im).2 / 2) "LANCZOS" s = (Py.Ok (halved im), s).
Proof.
  intros [Hw Hh]. unfold resize, copy. cbn [fst snd].
  assert (1 ≤ (size im).1 / 2) by (apply Z.div_le_lower_bound; lia).
  assert (1 ≤ (size im).2 / 2) by (apply Z.div_le_lower_bound; lia).
  destruct (Z.ltb_spec ((size im).1 / 2) 1); [lia|].
  destruct (Z.ltb_spec ((size im).2 / 2) 1); [lia|]. done.
Qed.

Lemma body_next bef cur x aft acc c :
  halvable cur →
  loop_body (Vars (Handle bef cur (x :: aft)) acc c) =
  (Py.Ok tt, Vars (Handle (bef ++ [cur]) x aft) (acc ++ [halved cur]) (c + 1)).
Proof.
  intros Hc. unfold loop_body, Py.bind, Py.get, Py.modify. cbn [img frames frame_count].
  rewrite (resize_halved cur) by done. cbn [img frames frame_count].
  rewrite seek_next. done.
Qed.

Lemma body_end bef cur acc c :
  halvable cur →
  loop_body (Vars (Handle bef cur []) acc c) =
  (Py.Raise (Py.EOFError "no more images in GIF file"),
   Vars (Handle bef cur []) (acc ++ [halved cur]) c).
Proof.
  intros Hc. unfold loop_body, Py.bind, Py.get, Py.modify. cbn [img frames frame_count].
  rewrite (resize_halved cur) by done. cbn [img frames frame_count].
  rewrite seek_end. done.
Qed.

Lemma while_spec fuel : ∀ bef cur aft acc c,
  Forall halvable (cur :: aft) → 0 ≤ c ≤ max_frames →
  (Z.to_nat (max_frames - c) ≤ fuel)%nat →
  ∃ r h c',
    Py.while fuel (λ v, frame_count v <? max_frames) loop_body
      (Vars (Handle bef cur aft) acc c) =
    (r, Vars h (acc ++ (halved <$> take (Z.to_nat (max_frames - c)) (cur :: aft))) c')
    ∧ Py.ended r.
Proof.
  induction fuel as [|fuel IH]; intros bef cur aft acc c Hall Hc Hfuel.
  - assert (c = max_frames) as -> by lia.
    cbn [Py.while frame_count]. rewrite Z.ltb_irrefl. rewrite Z.sub_diag.
    cbn [Z.to_nat take fmap list_fmap].
    rewrite app_nil_r. eexists _, _, _. split; [done|by left].
  - cbn [Py.while frame_count]. destruct (Z.ltb_spec c max_frames) as [Hlt|Hge].
    + replace (Z.to_nat (max_frames - c))
        with (Datatypes.S (Z.to_nat (max_frames - (c + 1)))) by lia.
      apply Forall_cons in Hall as [Hcur Haft].
      destruct aft as [|x aft].
      * unfold Py.bind. rewrite body_end by done.
        cbn [take]. rewrite take_nil.
        eexists _, _, _. split; [done|]. right. by eexists.
      * unfold Py.bind. rewrite body_next by done.
        destruct (IH (bef ++ [cur]) x aft (acc ++ [halved cur]) (c + 1))
          as (r & h & c' & Hrun & Hr); [done|lia|lia|].
        rewrite Hrun. eexists r, h, c'. split; [|done].
        cbn [take fmap list_fmap]. by rewrite <- app_assoc.
    + assert (c = max_frames) as -> by lia.
      rewrite Z.sub_diag. cbn [Z.to_nat take fmap list_fmap].
      rewrite app_nil_r. eexists _, _, _. split; [done|by left].
Qed.

Lemma extract_frames_spec fuel first rest :
  Forall halvable (first :: rest) → (Z.to_nat max_frames ≤ fuel)%nat →
  ∃ h c',
    extract_frames fuel (Vars (Handle [] first rest) [] 0) =
    (Py.Ok tt, Vars h (halved <$> take (Z.to_nat max_frames) (first :: rest)) c').
Proof.
  intros Hall Hfuel.
  destruct (while_spec fuel [] first rest [] 0 Hall) as (r & h & c' & Hrun & Hr);
    [unfold max_frames; lia|by rewrite Z.sub_0_r|].
  rewrite Z.sub_0_r in Hrun. unfold extract_frames, Py.try_except_EOFError.
  rewrite Hrun. exists h, c'. destruct Hr as [->|[msg ->]]; done.
Qed.

Lemma save_gif (first : image) more d (w : world) :
  save first output_path None more (gif_kwargs d) w =
  if is_dir (files w) output_path then (Py.Raise (Py.IsADirectoryError output_path), w)
  else (Py.Ok tt,
        World (<[output_path := File (Encoded "GIF" (gif_kwargs d) (first :: more))]> (files w))
              (stdout w)).
Proof.
  unfold save.
  change (format_of output_path None) with (Some "GIF").
  change (bool_decide (kwarg (gif_kwargs d) "save_all" = Some 1)) with true.
  cbn iota.
  destruct (is_dir (files w) output_path) eqn:Hd.
  - by rewrite is_dir_true_write.
  - by rewrite is_dir_false_write.
Qed.

(** What the module does once the file is open and the frames are
    collected in [v]. *)
Lemma save_and_report (v : vars) (w : world) first more :
  frames v = first :: more →
  (first <- Py.index (frames v) 0;;
   save first "assets/svg/pathway_temp.gif" None (drop 1 (frames v))
     [("save_all", 1); ("duration", default 100 (duration (img v)));
      ("loop", 0); ("optimize", 1)];;
   print [Lit "Created temporary GIF with ";
          Num (Z.of_nat (length (frames v))); Lit " frames"]) w =
  if is_dir (files w) output_path then (Py.Raise (Py.IsADirectoryError output_path), w)
  else (Py.Ok tt,
        World (<[output_path :=
                   File (Encoded "GIF" (gif_kwargs (default 100 (duration (img v))))
                           (frames v))]> (files w))
              (stdout w ++ [gif_line (length (frames v))])).
Proof.
  intros Hv. rewrite Hv. unfold Py.index. cbn [lookup list_lookup drop].
  unfold Py.bind at 1. cbn [Py.ret].
  unfold Py.bind.
  change "assets/svg/pathway_temp.gif" with output_path.
  change [("save_all", 1); ("duration", default 100 (duration (img v)));
      ("loop", 0); ("optimize", 1)] with (gif_kwargs (default 100 (duration (img v)))).
  rewrite save_gif. by destruct (is_dir (files w) output_path).
Qed.

Lemma gif_run fuel name fs out0 fmt kw first rest :
  fs !! input_path = Some (File (Encoded fmt kw (first :: rest))) →
  Forall halvable (first :: rest) →
  (Z.to_nat max_frames ≤ fuel)%nat →
  let collected := halved <$> take (Z.to_nat max_frames) (first :: rest) in
  ∃ d,
    module_with fuel true name (World fs out0) =
    if is_dir fs output_path
    then (Py.Raise (Py.IsADirectoryError output_path), World fs out0)
    else (Py.Ok tt,
          World (<[output_path := File (Encoded "GIF" (gif_kwargs d) collected)]> fs)
                (out0 ++ [gif_line (length collected)])).
Proof.
  intros Hin Hall Hfuel collected.
  destruct (extract_frames_spec fuel first rest Hall Hfuel) as (h & c' & Hloop).
  exists (default 100 (duration h)).
  unfold module_with.
  erewrite bind_ok by reflexivity.
  erewrite bind_ok by (eapply open_image; exact Hin).
  erewrite bind_ok by (unfold with_vars; rewrite Hloop; reflexivity).
  rewrite (save_and_report _ _ (halved first) (halved <$> take (Z.to_nat max_frames - 1) rest)).
  - done.
  - cbn [frames]. unfold max_frames. done.
Qed.

(** The module run as far as the disk matters: what was found at the input
    path, and whether a directory blocks the output path. *)
Lemma gif_run_cases fuel pillow name fs out0 :
  ∃ (r : Py.result unit) (c : content) lines,
    (∀ fs' , fs' !! input_path = fs !! input_path →
             is_dir fs' output_path = is_dir fs output_path →
       module_with fuel pillow name (World fs' out0) = (r, World fs' out0) ∧ r ≠ Py.Ok tt)
    ∨
    (∀ fs' , fs' !! input_path = fs !! input_path →
             is_dir fs' output_path = is_dir fs output_path →
       module_with fuel pillow name (World fs' out0) =
       (Py.Ok tt, World (<[output_path := File c]> fs') (out0 ++ lines))).
Proof.
  unfold module_with.
  destruct pillow; [|exists (Py.Raise (Py.ModuleNotFoundError "PIL")), (Blob []), []; by left].
  destruct (open_entry input_path (fs !! input_path)) as [h|err|] eqn:Hopen.
  2:{ exists (Py.Raise err), (Blob []), []. left. intros fs' Hin _.
      erewrite bind_ok by reflexivity.
      erewrite bind_raise; [done|]. unfold Image_open. cbn [files].
      change "assets/svg/pathway.gif" with input_path. by rewrite Hin, Hopen. }
  2:{ by destruct (fs !! input_path) as [[[b|f kw [|first rest]]|n]|]. }
  destruct (extract_frames fuel (Vars h [] 0)) as [[[]|err|] v] eqn:Hloop.
  2:{ exists (Py.Raise err), (Blob []), []. left. intros fs' Hin _.
      erewrite bind_ok by reflexivity.
      erewrite bind_ok
        by (unfold Image_open; cbn [files];
            change "assets/svg/pathway.gif" with input_path; by rewrite Hin, Hopen).
      erewrite bind_raise; [done|]. unfold with_vars. by rewrite Hloop. }
  2:{ exists Py.OutOfFuel, (Blob []), []. left. intros fs' Hin _.
      erewrite bind_ok by reflexivity.
      erewrite bind_ok
        by (unfold Image_open; cbn [files];
            change "assets/svg/pathway.gif" with input_path; by rewrite Hin, Hopen).
      unfold Py.bind, with_vars. by rewrite Hloop. }
  destruct (frames v) as [|first more] eqn:Hfr.
  { exists (Py.Raise (Py.IndexError "list index out of range")), (Blob []), [].
    left. intros fs' Hin _.
    erewrite bind_ok by reflexivity.
    erewrite bind_ok
      by (unfold Image_open; cbn [files];
          change "assets/svg/pathway.gif" with input_path; by rewrite Hin, Hopen).
    erewrite bind_ok by (unfold with_vars; by rewrite Hloop).
    erewrite bind_raise; [done|]. unfold Py.index. by rewrite Hfr. }
  destruct (is_dir fs output_path) eqn:Hd.
  - exists (Py.Raise (Py.IsADirectoryError output_path)), (Blob []), [].
    left. intros fs' Hin Hd'.
    erewrite bind_ok by reflexivity.
    erewrite bind_ok
      by (unfold Image_open; cbn [files];
          change "assets/svg/pathway.gif" with input_path; by rewrite Hin, Hopen).
    erewrite bind_ok by (unfold with_vars; by rewrite Hloop).
    rewrite (save_and_report v _ first more Hfr). cbn [files]. by rewrite Hd'.
  - eexists (Py.Ok tt), _, _. right. intros fs' Hin Hd'.
    erewrite bind_ok by reflexivity.
    erewrite bind_ok
      by (unfold Image_open; cbn [files];
          change "assets/svg/pathway.gif" with input_path; by rewrite Hin, Hopen).
    erewrite bind_ok by (unfold with_vars; by rewrite Hloop).
    rewrite (save_and_report v _ first more Hfr). cbn [files stdout]. rewrite Hd'.
    reflexivity.
Qed.

Lemma gif_run_complete name fs fmt kw first rest :
  fs !! input_path = Some (File (Encoded fmt kw (first :: rest))) →
  Forall halvable (first :: rest) →
  let collected := halved <$> take (Z.to_nat max_frames) (first :: rest) in
  ∃ d,
    Process.run (ResizeGif.module true name) fs =
    if is_dir fs output_path
    then Process.Outcome (Some 1) []
           (Some (Py.message (Py.IsADirectoryError output_path))) fs
    else Process.Outcome (Some 0) [gif_line (length collected)] None
           (<[output_path := File (Encoded "GIF" (gif_kwargs d) collected)]> fs).
Proof.
  intros Hin Hall collected.
  destruct (gif_run (Z.to_nat max_frames) name fs [] fmt kw first rest Hin Hall)
    as [d Hrun]; [done|].
  exists d. unfold Process.run, ResizeGif.module. rewrite Hrun.
  by destruct (is_dir fs output_path).
Qed.

Lemma halved_size (im : image) w h :
  size im = (w, h) → size (halved im) = (w / 2, h / 2).
Proof. intros Hs. unfold halved, resized. cbn [size]. by rewrite Hs. Qed.

Lemma halvable_of_size (im : image) w h :
  2 ≤ w → 2 ≤ h → size im = (w, h) → halvable im.
Proof. intros Hw Hh Hs. unfold halvable. by rewrite Hs. Qed.


Lemma gif_run_missing name fs :
  fs !! input_path = None →
  Process.run (ResizeGif.module true name) fs =
  Process.Outcome (Some 1) []
    (Some "[Errno 2] No such file or directory: 'assets/svg/pathway.gif'") fs.
Proof.
  intros Hin. unfold Process.run, ResizeGif.module, module_with.
  erewrite bind_ok by reflexivity.
  erewrite bind_raise
    by (unfold Image_open; cbn [files];
        change "assets/svg/pathway.gif" with input_path; by rewrite Hin).
  done.
Qed.

End ResizeGifSteps.

(** ** Steps of the frontmatter extractor *)

Section FrontmatterLemmas.
Import Frontmatter.

Lemma append_cons c (a b : string) : String c a +:+ b = String c (a +:+ b).
Proof. done. Qed.

Lemma append_assoc (a b c : string) : (a +:+ b) +:+ c = a +:+ b +:+ c.
Proof. induction a as [|x a IH]; [done|]. rewrite !append_cons. by f_equal. Qed.

Lemma split_on_nonempty sep s : split_on sep s ≠ [].
Proof.
  destruct s as [|c s]; cbn; [done|].
  destruct (Ascii.eqb c sep); [done|]. by destruct (split_on sep s).
Qed.

Lemma mentions_append c a b :
  mentions c (a +:+ b) = mentions c a || mentions c b.
Proof.
  induction a as [|x a IH]; [done|]. rewrite append_cons. cbn [mentions].
  rewrite IH. by rewrite orb_assoc.
Qed.

(** A piece without the separator, then the separator: the piece is the
    first of the split. *)
Lemma split_on_first sep a b :
  mentions sep a = false →
  split_on sep (a +:+ String sep b) = a :: split_on sep b.
Proof.
  induction a as [|x a IH].
  - intros _. change ("" +:+ String sep b) with (String sep b).
    cbn [split_on]. by rewrite Ascii.eqb_refl.
  - cbn [mentions]. intros H. apply orb_false_elim in H as [Hx Ha].
    rewrite append_cons. cbn [split_on]. rewrite Hx, IH; done.
Qed.

Lemma unlines_lines s : unlines (lines s) = s.
Proof.
  unfold lines. induction s as [|c s IH]; [done|].
  cbn [split_on]. destruct (Ascii.eqb_spec c (ascii_of_nat 10)) as [->|Hc].
  - cbn [unlines]. pose proof (split_on_nonempty (ascii_of_nat 10) s) as Hne.
    destruct (split_on (ascii_of_nat 10) s) as [|l ls] eqn:Hs; [done|].
    cbn. by rewrite <- IH.
  - pose proof (split_on_nonempty (ascii_of_nat 10) s) as Hne.
    destruct (split_on (ascii_of_nat 10) s) as [|l ls] eqn:Hs; [done|].
    rewrite <- IH. by destruct ls.
Qed.

Lemma split_colon_first k v :
  mentions ":" k = false → split_colon (k +:+ String ":" v) = Some (k, v).
Proof.
  induction k as [|x k IH]; [done|].
  cbn [mentions]. intros H. apply orb_false_elim in H as [Hx Hk].
  rewrite append_cons. cbn [split_colon]. by rewrite Hx, IH.
Qed.

Lemma lines_block kvs rest :
  Forall valid_pair kvs →
  lines (block_lines kvs +:+ rest) = (line_text <$> kvs) ++ lines rest.
Proof.
  induction 1 as [|kv kvs (Hc & Hk & Hv) _ IH]; [done|].
  rewrite fmap_cons, <- app_comm_cons. cbn [block_lines]. unfold block_line.
  rewrite !append_assoc. 
  change (kv.1 +:+ ":" +:+ kv.2 +:+ Text.nl +:+ block_lines kvs +:+ rest)
    with (kv.1 +:+ ":" +:+ kv.2 +:+ String (ascii_of_nat 10) (block_lines kvs +:+ rest)).
  rewrite <- (append_assoc (kv.1)), <- (append_assoc (kv.1 +:+ ":")).
  unfold lines at 1. rewrite split_on_first.
  - fold (lines (block_lines kvs +:+ rest)). rewrite IH. by rewrite append_assoc.
  - rewrite !mentions_append, Hk, Hv. done.
Qed.

Lemma find_close_block kvs body_lines :
  Forall valid_pair kvs → body_lines ≠ [] →
  find_close ((line_text <$> kvs) ++ "---" :: body_lines)
  = Some (line_text <$> kvs, body_lines).
Proof.
  intros Hv Hne. induction Hv as [|kv kvs (Hc & Hk & Hv') _ IH].
  - cbn. by destruct body_lines.
  - rewrite fmap_cons, <- app_comm_cons. cbn [find_close].
    rewrite IH.
    destruct (String.eqb_spec (line_text kv) "---") as [E|_]; [|done].
    exfalso. assert (mentions ":" (line_text kv) = true) as Hm.
    { unfold line_text. rewrite mentions_append. cbn. by rewrite orb_true_r. }
    by rewrite E in Hm.
Qed.

Section WithParser.
Variable json_array : string → option (list string).

Lemma parse_line_key kv :
  valid_pair kv → ∃ v, parse_line json_array (line_text kv) = Some (strip kv.1, v).
Proof.
  intros (Hc & _ & _). unfold parse_line, line_text.
  change (kv.1 +:+ ":" +:+ kv.2) with (kv.1 +:+ String ":" kv.2).
  rewrite split_colon_first by done. eauto.
Qed.

Lemma parse_block_dom kvs (m0 : gmap string value) :
  Forall valid_pair kvs →
  dom (foldl (λ m l, match parse_line json_array l with
                     | Some (k, v) => <[k := v]> m
                     | None => m
                     end) m0 (line_text <$> kvs))
  = dom m0 ∪ list_to_set (strip <$> kvs.*1).
Proof.
  intros Hv. revert m0. induction Hv as [|kv kvs Hkv _ IH]; intros m0.
  - cbn. by rewrite (right_id_L ∅ (∪)).
  - rewrite !fmap_cons. cbn [foldl].
    destruct (parse_line_key kv Hkv) as [v ->].
    rewrite IH. rewrite dom_insert_L. cbn [list_to_set].
    by rewrite (assoc_L (∪)), (comm_L (∪) (dom m0)).
Qed.

Lemma extract_document kvs body :
  Forall valid_pair kvs →
  extract_frontmatter json_array (document kvs body) =
  (Some (parse_block json_array (line_text <$> kvs)), body).
Proof.
  intros Hv. unfold extract_frontmatter, document.
  change ("---" +:+ Text.nl +:+ block_lines kvs +:+ "---" +:+ Text.nl +:+ body)
    with ("---" +:+ String (ascii_of_nat 10)
            (block_lines kvs +:+ "---" +:+ Text.nl +:+ body)).
  unfold lines at 1. rewrite split_on_first by done.
  fold (lines (block_lines kvs +:+ "---" +:+ Text.nl +:+ body)).
  rewrite lines_block by done.
  change ("---" +:+ Text.nl +:+ body) with ("---" +:+ String (ascii_of_nat 10) body).
  unfold lines at 1. rewrite split_on_first by done. fold (lines body).
  cbn [String.eqb Ascii.eqb Bool.eqb].
  change (String.eqb "---" "---") with true. cbn iota.
  rewrite find_close_block by (done || apply split_on_nonempty).
  by rewrite unlines_lines.
Qed.

End WithParser.
End FrontmatterLemmas.

(** * Specified properties *)

(** ** optimize_images.py *)

Section OptimizeProperties.
Import OS PIL OptimizeImages.


(** C4. When [profile.png] is missing the function prints a message that
    names the path and returns: nothing is written and the exit status of
    the process is 0. *)
Theorem optimize_missing_input_exits_zero esz fs :
  fs !! "profile.png" = None →
  Process.run (OptimizeImages.module esz true "__main__") fs =
  Process.Outcome (Some 0)
    [[Lit "Error: "; Lit "profile.png"; Lit " not found"]] None fs.
Proof.
  intros Hin. rewrite run_module_main. unfold Process.run.
  by rewrite (run_missing esz fs [] Hin).
Qed.

(** The other error path of the same file does leave with status 1. *)
Lemma optimize_without_pillow_exits_one esz name fs :
  Process.status (Process.run (OptimizeImages.module esz false name) fs) = Some 1.
Proof. done. Qed.


End OptimizeProperties.

Section OptimizeExamples.
Import OS PIL OptimizeImages Samples.




Lemma optimize_missing_input_exits_zero_witness :
  (∅ : gmap string entry) !! "profile.png" = None
  ∧ Process.status (Process.run (OptimizeImages.module codec true "__main__") ∅)
    = Some 0.
Proof.
  assert ((∅ : gmap string entry) !! "profile.png" = None) as Hin
    by apply lookup_empty.
  split; [exact Hin|].
  by rewrite (optimize_missing_input_exits_zero codec ∅ Hin).
Defined.

End OptimizeExamples.

(** ** resize_gif.py *)

Section ResizeGifProperties.
Import OS PIL ResizeGif.

(** C9. For a source GIF all of whose frames have size [(w, h)] with
    [w >= 2] and [h >= 2], the run ends well unless a directory blocks the
    output path, and every frame of the GIF it stores has size
    [(w // 2, h // 2)]; the division rounds down, so twice the new width
    (height) does not exceed the old one. *)
Theorem output_frames_have_half_size name fs fmt kw first rest w h :
  fs !! input_path = Some (File (Encoded fmt kw (first :: rest))) →
  Forall (λ f, size f = (w, h)) (first :: rest) →
  2 ≤ w → 2 ≤ h →
  let o := Process.run (ResizeGif.module true name) fs in
  (is_dir fs output_path = false → Process.status o = Some 0)
  ∧ (Process.status o = Some 0 →
     ∃ kw' stored,
       Process.disk o !! output_path = Some (File (Encoded "GIF" kw' stored))
       ∧ stored ≠ []
       ∧ Forall (λ f, size f = (w / 2, h / 2)) stored)
  ∧ 2 * (w / 2) ≤ w ∧ 2 * (h / 2) ≤ h.
Proof.
  intros Hin Hsize Hw Hh o.
  assert (Forall halvable (first :: rest)) as Hall.
  { eapply Forall_impl; [exact Hsize|]. intros f Hf. by apply (halvable_of_size f w h). }
  destruct (gif_run_complete name fs fmt kw first rest Hin Hall) as [d Hrun].
  subst o. rewrite Hrun.
  split; [by intros ->|]. split.
  - destruct (is_dir fs output_path); [done|]. intros _.
    eexists _, _. cbn [Process.disk]. split; [apply lookup_insert_eq|].
    split; [by unfold max_frames|].
    apply Forall_fmap. eapply Forall_impl; [apply Forall_take; exact Hsize|].
    intros f Hf. by apply halved_size.
  - split; apply Z.mul_div_le; lia.
Qed.


End ResizeGifProperties.

Section ResizeGifExamples.
Import OS PIL ResizeGif Samples.

Lemma output_frames_have_half_size_witness :
  gif_disk (5, 7) 3 !! input_path =
    Some (File (Encoded "GIF" [] [cel (5, 7) 0; cel (5, 7) 1; cel (5, 7) 2]))
  ∧ Forall (λ f, size f = (5, 7)) [cel (5, 7) 0; cel (5, 7) 1; cel (5, 7) 2]
  ∧ let o := Process.run (ResizeGif.module true "__main__") (gif_disk (5, 7) 3) in
    Process.status o = Some 0
    ∧ ∃ kw stored,
        Process.disk o !! output_path = Some (File (Encoded "GIF" kw stored))
        ∧ Forall (λ f, size f = (2, 3)) stored.
Proof.
  assert (gif_disk (5, 7) 3 !! input_path =
    Some (File (Encoded "GIF" [] [cel (5, 7) 0; cel (5, 7) 1; cel (5, 7) 2])))
    as Hin by reflexivity.
  assert (Forall (λ f, size f = (5, 7)) [cel (5, 7) 0; cel (5, 7) 1; cel (5, 7) 2])
    as Hsize by (repeat constructor).
  split; [exact Hin|]. split; [exact Hsize|].
  destruct (output_frames_have_half_size "__main__" (gif_disk (5, 7) 3) "GIF" []
              (cel (5, 7) 0) [cel (5, 7) 1; cel (5, 7) 2] 5 7 Hin Hsize)
    as (Hok & Hstored & _); [lia|lia|].
  assert (Process.status
            (Process.run (ResizeGif.module true "__main__") (gif_disk (5, 7) 3))
          = Some 0) as Hstatus by (apply Hok; reflexivity).
  split; [exact Hstatus|].
  destruct (Hstored Hstatus) as (kw & stored & Hfile & _ & Hall).
  exists kw, stored. split; [exact Hfile|exact Hall].
Defined.



End ResizeGifExamples.

(** ** Both scripts *)

Section ImageScriptProperties.
Import OS PIL ResizeGif.

(** C3 (as amended). resize_gif does its work when the module is loaded,
    under any module name: with a readable input it stores the resized
    GIF. optimize_images does its work only when it is run as the main
    program; loaded under another name it defines its function and does
    nothing else. *)
Theorem module_load_behaviour esz name fs :
  (∀ fmt kw first rest,
     fs !! input_path = Some (File (Encoded fmt kw (first :: rest))) →
     Forall halvable (first :: rest) →
     is_dir fs output_path = false →
     ∃ kw',
       Process.disk (Process.run (ResizeGif.module true name) fs) !! output_path
       = Some (File (Encoded "GIF" kw'
                 (halved <$> take (Z.to_nat max_frames) (first :: rest)))))
  ∧ (name ≠ "__main__" →
     Process.run (OptimizeImages.module esz true name) fs =
     Process.Outcome (Some 0) [] None fs)
  ∧ Process.run (OptimizeImages.module esz true "__main__") fs =
    Process.run (OptimizeImages.optimize_profile_image esz) fs.
Proof.
  split; [|split].
  - intros fmt kw first rest Hin Hall Hd.
    destruct (gif_run_complete name fs fmt kw first rest Hin Hall) as [d Hrun].
    rewrite Hrun, Hd. eexists. apply lookup_insert_eq.
  - apply import_only.
  - apply run_module_main.
Qed.




End ImageScriptProperties.

Section ImageScriptExamples.
Import OS PIL Samples.

Lemma module_load_behaviour_witness :
  gif_disk (5, 7) 3 !! ResizeGif.input_path =
    Some (File (Encoded "GIF" [] [cel (5, 7) 0; cel (5, 7) 1; cel (5, 7) 2]))
  ∧ Forall ResizeGif.halvable [cel (5, 7) 0; cel (5, 7) 1; cel (5, 7) 2]
  ∧ is_dir (gif_disk (5, 7) 3) ResizeGif.output_path = false
  ∧ (∃ kw,
       Process.disk (Process.run (ResizeGif.module true "resize_gif") (gif_disk (5, 7) 3))
         !! ResizeGif.output_path
       = Some (File (Encoded "GIF" kw
                 (ResizeGif.halved <$> [cel (5, 7) 0; cel (5, 7) 1; cel (5, 7) 2]))))
  ∧ "optimize_images" ≠ "__main__"
  ∧ Process.run (OptimizeImages.module codec true "optimize_images") photo_disk =
    Process.Outcome (Some 0) [] None photo_disk.
Proof.
  assert (gif_disk (5, 7) 3 !! ResizeGif.input_path =
      Some (File (Encoded "GIF" [] [cel (5, 7) 0; cel (5, 7) 1; cel (5, 7) 2])))
    as Hin by reflexivity.
  assert (Forall ResizeGif.halvable [cel (5, 7) 0; cel (5, 7) 1; cel (5, 7) 2])
    as Hall by (repeat constructor; cbn; lia).
  assert (is_dir (gif_disk (5, 7) 3) ResizeGif.output_path = false) as Hd
    by reflexivity.
  assert ("optimize_images" ≠ "__main__") as Hname by discriminate.
  split; [exact Hin|]. split; [exact Hall|]. split; [exact Hd|]. split.
  - exact (proj1 (module_load_behaviour codec "resize_gif" (gif_disk (5, 7) 3))
             "GIF" [] (cel (5, 7) 0) [cel (5, 7) 1; cel (5, 7) 2] Hin Hall Hd).
  - split; [exact Hname|].
    exact (proj1 (proj2 (module_load_behaviour codec "optimize_images" photo_disk))
             Hname).
Defined.

(** C3 fails as stated: loading optimize_images under its module name,
    with a readable [profile.png] on disk, stores nothing and prints
    nothing, while the same disk run as main program gets its files. *)
Lemma importing_optimize_images_does_nothing :
  let imported := Process.run (OptimizeImages.module codec true "optimize_images") photo_disk in
  let main := Process.run (OptimizeImages.module codec true "__main__") photo_disk in
  Process.disk imported = photo_disk
  ∧ Process.out imported = []
  ∧ Forall (λ p, Process.disk imported !! p = None) OptimizeImages.output_paths
  ∧ Forall (λ p, is_Some (Process.disk main !! p)) OptimizeImages.output_paths.
Proof.
  vm_compute. repeat split; repeat constructor; by eexists.
Qed.






End ImageScriptExamples.

(** ** Frontmatter extraction *)

Section FrontmatterProperties.
Import Frontmatter.

(** C2. For a document made of a frontmatter block, whose lines each hold
    a key without colon, a colon and a value, and any body text,
    extraction returns a metadata mapping whose keys are exactly the
    (stripped) keys of the block, and the body text itself. *)
Theorem extract_frontmatter_roundtrip json_array kvs body :
  Forall valid_pair kvs →
  ∃ metadata,
    extract_frontmatter json_array (document kvs body) = (Some metadata, body)
    ∧ dom metadata = list_to_set (strip <$> kvs.*1).
Proof.
  intros Hv. eexists. split; [by apply extract_document|].
  unfold parse_block. rewrite parse_block_dom by done.
  by rewrite dom_empty_L, (left_id_L ∅ (∪)).
Qed.

End FrontmatterProperties.

Section FrontmatterExamples.
Import Frontmatter Samples.

(** The extraction scenario: the title and the tags of the sample post. *)
Example scenario_metadata :
  let '(metadata, body) :=
    extract_frontmatter (λ _, None) (document post.1 post.2) in
  body = post.2
  ∧ (metadata ≫= (.!! "title")) = Some (Str "Hello")
  ∧ (metadata ≫= (.!! "tags")) = Some (StrList ["a"; "b"]).
Proof. vm_compute. repeat split. Qed.

(** Without the opening line there is no frontmatter and the text is
    returned as it is. *)
Example scenario_no_frontmatter :
  extract_frontmatter (λ _, None) ("# Hello" +:+ Text.nl +:+ "text")
  = (None, "# Hello" +:+ Text.nl +:+ "text").
Proof. reflexivity. Qed.

Lemma extract_frontmatter_roundtrip_witness :
  Forall valid_pair post.1
  ∧ ∃ metadata,
      extract_frontmatter (λ _, None) (document post.1 post.2) = (Some metadata, post.2)
      ∧ dom metadata = {[ "title"; "author"; "tags" ]}.
Proof.
  assert (Forall valid_pair post.1) as Hv by (repeat constructor).
  split; [exact Hv|].
  destruct (extract_frontmatter_roundtrip (λ _, None) post.1 post.2 Hv)
    as (metadata & Hrun & Hdom).
  exists metadata. split; [exact Hrun|].
  rewrite Hdom. apply set_eq. intros k. cbn.
  rewrite !elem_of_union, !elem_of_singleton, elem_of_empty. tauto.
Defined.

End FrontmatterExamples.

(** * Further properties of the scripts *)

(** ** More on stored files *)

Section Stored.
Import OS.

Lemma store_snoc (fs : gmap string entry) jobs job :
  store fs (jobs ++ [job]) = <[job.1 := File job.2]> (store fs jobs).
Proof. unfold store. by rewrite foldl_app. Qed.

(** A path no job names keeps its entry. *)
Lemma store_lookup_other (fs : gmap string entry) jobs p :
  Forall (λ job, job.1 ≠ p) jobs → store fs jobs !! p = fs !! p.
Proof.
  induction jobs as [|job jobs IH] using rev_ind; [done|].
  rewrite Forall_app, Forall_singleton. intros [Hjobs Hjob].
  rewrite store_snoc, lookup_insert_ne by done. by apply IH.
Qed.

(** What is found at a path after storing: the entry it had, or a file
    that the jobs alone decide. *)
Lemma store_lookup_cases (fs : gmap string entry) jobs p :
  store fs jobs !! p = fs !! p
  ∨ ∃ c, ∀ fs' : gmap string entry, store fs' jobs !! p = Some (File c).
Proof.
  induction jobs as [|job jobs IH] using rev_ind; [by left|].
  destruct (decide (job.1 = p)) as [<-|Hne].
  - right. exists job.2. intros fs'. by rewrite store_snoc, lookup_insert_eq.
  - destruct IH as [Hsame|[c Hc]].
    + left. by rewrite store_snoc, lookup_insert_ne.
    + right. exists c. intros fs'. by rewrite store_snoc, lookup_insert_ne.
Qed.

(** Storing the same files a second time changes nothing. *)
Lemma store_twice (fs : gmap string entry) jobs :
  store (store fs jobs) jobs = store fs jobs.
Proof.
  apply map_eq. intros p.
  destruct (store_lookup_cases (store fs jobs) jobs p) as [Hsame|[c Hc]].
  - exact Hsame.
  - by rewrite !Hc.
Qed.

(** Storing what can be stored does not change where directories sit. *)
Lemma is_dir_store_storable (fs : gmap string entry) jobs q :
  is_dir (store fs (take (storable fs jobs) jobs)) q = is_dir fs q.
Proof.
  revert fs. induction jobs as [|job jobs IH]; intros fs; [done|].
  cbn [storable]. destruct (is_dir fs job.1) eqn:Hd; [done|].
  cbn [take]. unfold store. cbn [foldl]. fold (store (<[job.1:=File job.2]> fs)).
  rewrite <- (storable_after_write fs job.1 job.2 jobs Hd).
  rewrite IH. by apply is_dir_after_write.
Qed.

Lemma storable_store_storable (fs : gmap string entry) jobs :
  storable (store fs (take (storable fs jobs) jobs)) jobs = storable fs jobs.
Proof.
  apply storable_agree. apply Forall_forall. intros p _.
  apply is_dir_store_storable.
Qed.

End Stored.

(** ** More on optimize_images.py *)

Section OptimizeMore.
Import OS PIL OptimizeImages.

Variable esz : string → list (string * Z) → list image → Z.

Lemma outputs_paths (im : image) : (outputs im).*1 = output_paths.
Proof. done. Qed.

Lemma outputs_not_input (im : image) k :
  Forall (λ job, job.1 ≠ "profile.png") (take k (outputs im)).
Proof. apply Forall_take. repeat constructor; done. Qed.

(** Every run, however it ends, leaves the disk it found with some of the
    output files stored on top. *)
Lemma optimize_run_shape fs out0 :
  ∃ r lines written,
    optimize_profile_image esz (World fs out0)
    = (r, World (store fs written) (out0 ++ lines))
    ∧ Forall (λ job, job.1 ∈ output_paths) written.
Proof.
  destruct (fs !! "profile.png") as [e|] eqn:Hin.
  - destruct (open_entry_cases "profile.png" (Some e))
      as [(f & kw & first & rest & [= ->] & _)|[err Herr]].
    + rewrite (run_opened esz fs f kw first rest out0 Hin).
      eexists _, _, _. split; [done|].
      apply Forall_take. rewrite <- (outputs_paths first).
      apply Forall_forall. intros job Hjob. by apply list_elem_of_fmap_2.
    + exists (Py.Raise err), [], []. rewrite app_nil_r.
      unfold store. cbn [foldl]. split; [|done].
      apply run_unreadable; [rewrite Hin; eauto|by rewrite Hin].
  - eexists (Py.Ok tt), _, []. split; [by apply run_missing|done].
Qed.

Lemma module_run_cases pillow name fs :
  Process.run (OptimizeImages.module esz pillow name) fs
  = Process.run (optimize_profile_image esz) fs
  ∨ Process.disk (Process.run (OptimizeImages.module esz pillow name) fs) = fs
    ∧ (pillow = false ∨ name ≠ "__main__").
Proof.
  destruct pillow; [|right; split; [done|by left]].
  unfold Process.run. rewrite module_main.
  destruct (String.eqb_spec name "__main__") as [->|Hname]; [by left|].
  right. split; [done|by right].
Qed.

End OptimizeMore.

Section OptimizeExtras.
Import OS PIL OptimizeImages.

(** X1. A run of optimize_images changes nothing on disk outside its five
    output paths, however it ends: [profile.png] itself is never
    rewritten. *)
Theorem optimize_touches_only_outputs esz pillow name fs p :
  p ∉ output_paths →
  Process.disk (Process.run (OptimizeImages.module esz pillow name) fs) !! p
  = fs !! p.
Proof.
  intros Hp.
  destruct (module_run_cases esz pillow name fs) as [->|[-> _]]; [|done].
  unfold Process.run.
  destruct (optimize_run_shape esz fs []) as (r & lines & written & -> & Hpaths).
  cbn [Process.disk files]. apply store_lookup_other.
  eapply Forall_impl; [exact Hpaths|]. intros job Hjob E. apply Hp. by rewrite <- E.
Qed.

(** X2. When [profile.png] exists and cannot be opened as an image (a
    directory, a file that is no image), the run dies at [Image.open]:
    exit status 1, a message naming the path, nothing printed and nothing
    written. *)
Theorem optimize_unreadable_input esz fs :
  is_Some (fs !! "profile.png") →
  opens fs "profile.png" = false →
  let o := Process.run (OptimizeImages.module esz true "__main__") fs in
  Process.status o = Some 1
  ∧ Process.out o = []
  ∧ Process.disk o = fs
  ∧ ∃ msg, Process.err o = Some msg ∧ Text.contains "profile.png" msg = true.
Proof.
  intros Hin Hop o. subst o. rewrite run_module_main. unfold Process.run.
  unfold opens in Hop.
  destruct (open_entry "profile.png" (fs !! "profile.png")) as [h|err|] eqn:Herr;
    [done| |].
  - rewrite (run_unreadable esz fs [] err Hin Herr).
    cbn [Process.status Process.out Process.disk Process.err files stdout].
    destruct (fs !! "profile.png") as [[[b|f kw [|first rest]]|n]|];
      cbn in Herr; [| | | |by destruct Hin]; simplify_eq;
      (repeat split; try done); by eexists.
  - by destruct (fs !! "profile.png") as [[[b|f kw [|first rest]]|n]|].
Qed.


(** X4. Running optimize_images again on the disk a run left behind ends
    the same way, prints the same lines and leaves the disk as it is. *)
Theorem optimize_rerun_changes_nothing esz pillow name fs :
  let first := Process.run (OptimizeImages.module esz pillow name) fs in
  let second := Process.run (OptimizeImages.module esz pillow name) (Process.disk first) in
  Process.disk second = Process.disk first
  ∧ Process.status second = Process.status first
  ∧ Process.out second = Process.out first
  ∧ Process.err second = Process.err first.
Proof.
  intros first second. subst first second.
  destruct (module_run_cases esz pillow name fs) as [Hmain|[Hsame Hwhy]].
  2:{ rewrite Hsame. destruct (module_run_cases esz pillow name fs) as [_|_]; done. }
  destruct pillow.
  2:{ done. }
  unfold Process.run in *. rewrite !module_main in *.
  destruct (String.eqb name "__main__"); [|done]. clear Hmain.
  destruct (fs !! "profile.png") as [e|] eqn:Hin.
  - destruct (open_entry_cases "profile.png" (Some e))
      as [(f & kw & im & rest & [= ->] & _)|[err Herr]].
    + rewrite (run_opened esz fs f kw im rest [] Hin).
      cbn [Process.disk files].
      rewrite (run_opened esz _ f kw im rest []).
      2:{ rewrite store_lookup_other; [exact Hin|apply outputs_not_input]. }
      rewrite storable_store_storable, store_twice. done.
    + rewrite (run_unreadable esz fs [] err); [|rewrite Hin; eauto|by rewrite Hin].
      cbn [Process.disk files].
      rewrite (run_unreadable esz fs [] err); [done|rewrite Hin; eauto|by rewrite Hin].
  - rewrite (run_missing esz fs [] Hin). cbn [Process.disk files].
    by rewrite (run_missing esz fs [] Hin).
Qed.

(** X5. Only the first frame of [profile.png] is used: two files with the
    same first frame give the same output files and the same exit status,
    whatever further frames they hold. *)
Theorem optimize_uses_first_frame esz fs1 fs2 f1 kw1 f2 kw2 im rest1 rest2 :
  fs1 !! "profile.png" = Some (File (Encoded f1 kw1 (im :: rest1))) →
  fs2 !! "profile.png" = Some (File (Encoded f2 kw2 (im :: rest2))) →
  Forall (λ p, is_dir fs1 p = is_dir fs2 p) output_paths →
  let o1 := Process.run (OptimizeImages.module esz true "__main__") fs1 in
  let o2 := Process.run (OptimizeImages.module esz true "__main__") fs2 in
  Process.status o1 = Process.status o2
  ∧ ∃ k, Process.disk o1 = store fs1 (take k (outputs im))
         ∧ Process.disk o2 = store fs2 (take k (outputs im)).
Proof.
  intros H1 H2 Hdir o1 o2. subst o1 o2. rewrite !run_module_main. unfold Process.run.
  rewrite (run_opened esz fs1 f1 kw1 im rest1 [] H1).
  rewrite (run_opened esz fs2 f2 kw2 im rest2 [] H2).
  rewrite (storable_agree fs1 fs2 (outputs im)) by exact Hdir.
  split; [done|]. by eexists.
Qed.

End OptimizeExtras.

(** ** More on resize_gif.py *)

Section ResizeGifMore.
Import OS PIL ResizeGif.

(** A pass of the loop raises [ValueError] or [EOFError], or ends with
    one more pass counted. *)
Lemma body_cases (v : vars) :
  (∃ e v', loop_body v = (Py.Raise e, v')
           ∧ ((∃ m, e = Py.ValueError m) ∨ (∃ m, e = Py.EOFError m)))
  ∨ (∃ v', loop_body v = (Py.Ok tt, v') ∧ frame_count v' = frame_count v + 1).
Proof.
  destruct v as [h fr c].
  unfold loop_body, Py.bind, Py.get, Py.modify, resize, seek, Py.raise, Py.ret.
  cbn [img frames frame_count].
  destruct (_ || _); [left; eauto 10|].
  cbn [img frames frame_count].
  destruct (all_frames h !! (tell h + 1)%nat); [right|left]; eauto 10.
Qed.

(** The loop needs no more passes than its bound leaves: any larger budget
    gives the same result, and the budget is never what ends it. *)
Lemma while_fuel_irrelevant fuel1 : ∀ fuel2 (v : vars),
  (Z.to_nat (max_frames - frame_count v) ≤ fuel1)%nat →
  (Z.to_nat (max_frames - frame_count v) ≤ fuel2)%nat →
  Py.while fuel1 (λ v, frame_count v <? max_frames) loop_body v
  = Py.while fuel2 (λ v, frame_count v <? max_frames) loop_body v
  ∧ ((Py.while fuel1 (λ v, frame_count v <? max_frames) loop_body v).1 = Py.Ok tt
     ∨ (∃ m, (Py.while fuel1 (λ v, frame_count v <? max_frames) loop_body v).1
             = Py.Raise (Py.ValueError m))
     ∨ (∃ m, (Py.while fuel1 (λ v, frame_count v <? max_frames) loop_body v).1
             = Py.Raise (Py.EOFError m))).
Proof.
  induction fuel1 as [|fuel1 IH]; intros fuel2 v H1 H2.
  - assert ((frame_count v <? max_frames) = false) as Hc by (apply Z.ltb_ge; lia).
    destruct fuel2; cbn [Py.while]; rewrite Hc; (split; [done|by left]).
  - destruct (frame_count v <? max_frames) eqn:Hc.
    + apply Z.ltb_lt in Hc.
      destruct fuel2 as [|fuel2]; [lia|].
      cbn [Py.while]. apply Z.ltb_lt in Hc. rewrite Hc. apply Z.ltb_lt in Hc.
      unfold Py.bind.
      destruct (body_cases v) as [(e & v' & -> & He)|(v' & -> & Hcount)].
      * split; [done|]. right. cbn [fst].
        destruct He as [[m ->]|[m ->]]; [left|right]; by eexists.
      * apply IH; lia.
    + destruct fuel2; cbn [Py.while]; rewrite Hc; (split; [done|by left]).
Qed.

Lemma extract_frames_fuel fuel (v : vars) :
  (Z.to_nat (max_frames - frame_count v) ≤ fuel)%nat →
  extract_frames fuel v = extract_frames (Z.to_nat (max_frames - frame_count v)) v
  ∧ ((extract_frames fuel v).1 = Py.Ok tt
     ∨ ∃ m, (extract_frames fuel v).1 = Py.Raise (Py.ValueError m)).
Proof.
  intros Hfuel. unfold extract_frames, Py.try_except_EOFError.
  destruct (while_fuel_irrelevant fuel (Z.to_nat (max_frames - frame_count v)) v)
    as [-> Hends]; [done|done|].
  split; [done|].
  destruct (Py.while _ _ _ v) as [r v'].
  destruct Hends as [Hr|[[m Hr]|[m Hr]]]; cbn [fst] in Hr; subst r; eauto.
Qed.



(** A first frame less than two pixels wide or high stops the first pass. *)
Lemma body_tiny (v : vars) :
  (size (img v)).1 < 2 ∨ (size (img v)).2 < 2 →
  loop_body v = (Py.Raise (Py.ValueError "height and width must be > 0"), v).
Proof.
  intros Hsmall. unfold loop_body, Py.bind at 1, Py.get.
  unfold Py.bind at 1, resize, copy. cbn [fst snd].
  assert ((((size (img v)).1 / 2 <? 1) || ((size (img v)).2 / 2 <? 1)) = true) as ->;
    [|done].
  apply orb_true_iff.
  destruct Hsmall as [H|H]; [left|right]; apply Z.ltb_lt;
    apply Z.div_lt_upper_bound; lia.
Qed.

Lemma open_gif (fs : gmap string entry) out0 :
  Image_open "assets/svg/pathway.gif" (World fs out0)
  = (open_entry input_path (fs !! input_path), World fs out0).
Proof. done. Qed.

(** How a run with enough passes ends: with an exception that gives exit
    status 1 and the disk as it was, or well, with one file stored where
    no directory sat and one line printed. *)
Lemma gif_run_full fuel pillow name fs out0 :
  (Z.to_nat max_frames ≤ fuel)%nat →
  (∃ e, module_with fuel pillow name (World fs out0) = (Py.Raise e, World fs out0)
        ∧ Py.exit_status (A:=unit) (Py.Raise e) = Some 1)
  ∨ (is_dir fs output_path = false
     ∧ ∃ c n, module_with fuel pillow name (World fs out0)
              = (Py.Ok tt, World (<[output_path := File c]> fs) (out0 ++ [gif_line n]))).
Proof.
  intros Hfuel. unfold module_with.
  destruct pillow; [|left; by eexists].
  erewrite bind_ok by reflexivity.
  destruct (open_entry input_path (fs !! input_path)) as [h|err|] eqn:Hopen.
  - erewrite bind_ok by (rewrite open_gif, Hopen; reflexivity).
    destruct (extract_frames_fuel fuel (Vars h [] 0)) as [_ Hends]; [done|].
    destruct (extract_frames fuel (Vars h [] 0)) as [r v] eqn:Hloop.
    destruct Hends as [Hr|[m Hr]]; cbn [fst] in Hr; subst r.
    + erewrite bind_ok by (unfold with_vars; by rewrite Hloop).
      destruct (frames v) as [|first more] eqn:Hfr.
      * left. exists (Py.IndexError "list index out of range"). split; [|done].
        by erewrite bind_raise by reflexivity.
      * rewrite <- Hfr. rewrite (save_and_report v _ first more Hfr).
        cbn [files stdout].
        destruct (is_dir fs output_path); [left; by eexists|right].
        split; [done|]. by eexists _, _.
    + left. exists (Py.ValueError m). split; [|done].
      by erewrite bind_raise by (unfold with_vars; by rewrite Hloop).
  - left. exists err. split.
    + by erewrite bind_raise by (rewrite open_gif, Hopen; reflexivity).
    + by apply (open_entry_raises input_path (fs !! input_path)).
  - by destruct (fs !! input_path) as [[[b|f kw [|first rest]]|n]|].
Qed.

End ResizeGifMore.

Section ResizeGifExtras.
Import OS PIL ResizeGif.

(** X6. A run of resize_gif changes nothing on disk outside its output
    path, however it ends: the source GIF is never rewritten. *)
Theorem gif_touches_only_output pillow name fs p :
  p ≠ output_path →
  Process.disk (Process.run (ResizeGif.module pillow name) fs) !! p = fs !! p.
Proof.
  intros Hp. unfold Process.run, ResizeGif.module.
  destruct (gif_run_full (Z.to_nat max_frames) pillow name fs [])
    as [(e & -> & _)|(_ & c & n & ->)]; [done|done|].
  cbn [Process.disk files]. by rewrite lookup_insert_ne.
Qed.

(** X7. The frame loop never needs more than its thirty passes, whatever
    the file holds: with any larger budget of passes the run is the same,
    and every run ends, with exit status 0 or 1. *)
Theorem gif_run_ends fuel pillow name fs :
  (Z.to_nat max_frames ≤ fuel)%nat →
  Process.run (ResizeGif.module_with fuel pillow name) fs
  = Process.run (ResizeGif.module pillow name) fs
  ∧ (Process.status (Process.run (ResizeGif.module pillow name) fs) = Some 0
     ∨ Process.status (Process.run (ResizeGif.module pillow name) fs) = Some 1).
Proof.
  intros Hfuel. split.
  - unfold Process.run, ResizeGif.module.
    assert (∀ w, module_with fuel pillow name w
                 = module_with (Z.to_nat max_frames) pillow name w) as ->; [|done].
    intros w. unfold module_with.
    apply bind_ext. clear w. intros _ w.
    apply bind_ext. clear w. intros opened w.
    unfold Py.bind, with_vars.
    destruct (extract_frames_fuel fuel (Vars opened [] 0)) as [-> _]; [done|].
    done.
  - unfold Process.run, ResizeGif.module.
    destruct (gif_run_full (Z.to_nat max_frames) pillow name fs [])
      as [(e & -> & He)|(_ & c & n & ->)]; [done|right; exact He|by left].
Qed.


(** X9. A source whose first frame is less than two pixels wide or high
    stops the run in the first pass of the loop, at [resize]: exit status
    1, nothing printed, nothing written. *)
Theorem gif_tiny_frame_fails name fs fmt kw first rest :
  fs !! input_path = Some (File (Encoded fmt kw (first :: rest))) →
  (size first).1 < 2 ∨ (size first).2 < 2 →
  Process.run (ResizeGif.module true name) fs
  = Process.Outcome (Some 1) [] (Some "height and width must be > 0") fs.
Proof.
  intros Hin Hsmall.
  unfold Process.run, ResizeGif.module, module_with.
  erewrite bind_ok by reflexivity.
  erewrite bind_ok by (eapply open_image; exact Hin).
  erewrite bind_raise.
  2:{ unfold with_vars, extract_frames, Py.try_except_EOFError.
      change (Z.to_nat max_frames) with 30%nat. cbn [Py.while frame_count].
      change (0 <? max_frames) with true. cbn iota.
      unfold Py.bind. by rewrite body_tiny. }
  reflexivity.
Qed.

(** X10. When the source path holds nothing that opens as an image (no
    file, a directory, a file that is no image), the run dies at
    [Image.open]: exit status 1, a message naming the path, nothing
    printed and nothing written. *)
Theorem gif_unreadable_input name fs :
  opens fs input_path = false →
  let o := Process.run (ResizeGif.module true name) fs in
  Process.status o = Some 1
  ∧ Process.out o = []
  ∧ Process.disk o = fs
  ∧ ∃ msg, Process.err o = Some msg ∧ Text.contains input_path msg = true.
Proof.
  intros Hop o. subst o. unfold opens in Hop.
  unfold Process.run, ResizeGif.module, module_with.
  erewrite bind_ok by reflexivity.
  destruct (open_entry input_path (fs !! input_path)) as [h|err|] eqn:Herr;
    [done| |].
  - erewrite bind_raise by (rewrite open_gif, Herr; reflexivity).
    cbn [Process.status Process.out Process.disk Process.err files stdout].
    destruct (fs !! input_path) as [[[b|f kw [|first rest]]|n]|];
      cbn in Herr; simplify_eq; (repeat split; try done); by eexists.
  - by destruct (fs !! input_path) as [[[b|f kw [|first rest]]|n]|].
Qed.

(** X11. With a directory at the output path the run resizes its frames
    and then dies at [save]: exit status 1, a message naming the output
    path, nothing printed and nothing written. *)
Theorem gif_blocked_output name fs fmt kw first rest :
  fs !! input_path = Some (File (Encoded fmt kw (first :: rest))) →
  Forall halvable (first :: rest) →
  is_dir fs output_path = true →
  Process.run (ResizeGif.module true name) fs
  = Process.Outcome (Some 1) []
      (Some "[Errno 21] Is a directory: 'assets/svg/pathway_temp.gif'") fs.
Proof.
  intros Hin Hall Hd.
  destruct (gif_run_complete name fs fmt kw first rest Hin Hall) as [d ->].
  by rewrite Hd.
Qed.

(** X12. Running resize_gif again on the disk a run left behind ends the
    same way, prints the same line and leaves the disk as it is. *)
Theorem gif_rerun_changes_nothing pillow name fs :
  let first := Process.run (ResizeGif.module pillow name) fs in
  let second := Process.run (ResizeGif.module pillow name) (Process.disk first) in
  Process.disk second = Process.disk first
  ∧ Process.status second = Process.status first
  ∧ Process.out second = Process.out first
  ∧ Process.err second = Process.err first.
Proof.
  intros first second. subst first second.
  unfold Process.run, ResizeGif.module.
  destruct (gif_run_cases (Z.to_nat max_frames) pillow name fs [])
    as (r & c & lines & [Hfail|Hok]).
  - destruct (Hfail fs eq_refl eq_refl) as [Hrun _]. rewrite Hrun.
    cbn [Process.disk files]. by rewrite Hrun.
  - assert (is_dir fs output_path = false) as Hd.
    { destruct (gif_run_full (Z.to_nat max_frames) pillow name fs [])
        as [(e & He & _)|(Hd & _)]; [done| |done].
      rewrite (Hok fs eq_refl eq_refl) in He. discriminate He. }
    rewrite (Hok fs eq_refl eq_refl). cbn [Process.disk files].
    rewrite (Hok (<[output_path := File c]> fs)).
    + cbn [Process.disk Process.status Process.out Process.err files stdout].
      by rewrite insert_insert_eq.
    + by rewrite lookup_insert_ne.
    + by rewrite is_dir_insert_file, decide_True, Hd.
Qed.


End ResizeGifExtras.

Section OptimizeExtraExamples.
Import OS PIL OptimizeImages Samples.

Lemma optimize_touches_only_outputs_witness :
  ("profile.png" ∉ output_paths)
  ∧ Process.disk (Process.run (OptimizeImages.module codec true "__main__") photo_disk)
      !! "profile.png" = Some (File (Encoded "PNG" [] [photo])).
Proof.
  assert ("profile.png" ∉ output_paths) as Hp.
  { unfold output_paths. rewrite !not_elem_of_cons.
    repeat (split; [discriminate|]). apply not_elem_of_nil. }
  split; [exact Hp|].
  by rewrite (optimize_touches_only_outputs codec true "__main__" photo_disk
                "profile.png" Hp).
Defined.

Lemma optimize_unreadable_input_witness :
  is_Some (dir_disk !! "profile.png")
  ∧ opens dir_disk "profile.png" = false
  ∧ let o := Process.run (OptimizeImages.module codec true "__main__") dir_disk in
    Process.status o = Some 1 ∧ Process.out o = [] ∧ Process.disk o = dir_disk.
Proof.
  assert (is_Some (dir_disk !! "profile.png")) as Hin by (by eexists).
  assert (opens dir_disk "profile.png" = false) as Hop by reflexivity.
  split; [exact Hin|]. split; [exact Hop|].
  destruct (optimize_unreadable_input codec dir_disk Hin Hop) as (H1 & H2 & H3 & _).
  split; [exact H1|]. split; [exact H2|exact H3].
Defined.


Lemma optimize_uses_first_frame_witness :
  photo_disk !! "profile.png" = Some (File (Encoded "PNG" [] [photo]))
  ∧ animated_disk !! "profile.png"
    = Some (File (Encoded "PNG" [] [photo; cel (640, 480) 1]))
  ∧ Forall (λ p, is_dir photo_disk p = is_dir animated_disk p) output_paths
  ∧ ∃ k,
      Process.disk (Process.run (OptimizeImages.module codec true "__main__") photo_disk)
      = store photo_disk (take k (outputs photo))
      ∧ Process.disk
          (Process.run (OptimizeImages.module codec true "__main__") animated_disk)
        = store animated_disk (take k (outputs photo)).
Proof.
  assert (photo_disk !! "profile.png" = Some (File (Encoded "PNG" [] [photo])))
    as H1 by reflexivity.
  assert (animated_disk !! "profile.png"
          = Some (File (Encoded "PNG" [] [photo; cel (640, 480) 1])))
    as H2 by reflexivity.
  assert (Forall (λ p, is_dir photo_disk p = is_dir animated_disk p) output_paths)
    as Hdir by (repeat constructor).
  split; [exact H1|]. split; [exact H2|]. split; [exact Hdir|].
  exact (proj2 (optimize_uses_first_frame codec photo_disk animated_disk
                  "PNG" [] "PNG" [] photo [] [cel (640, 480) 1] H1 H2 Hdir)).
Defined.

End OptimizeExtraExamples.

Section ResizeGifExtraExamples.
Import OS PIL ResizeGif Samples.

Lemma gif_touches_only_output_witness :
  input_path ≠ output_path
  ∧ Process.disk (Process.run (ResizeGif.module true "__main__") (gif_disk (5, 7) 3))
      !! input_path = gif_disk (5, 7) 3 !! input_path.
Proof.
  assert (input_path ≠ output_path) as Hp by discriminate.
  split; [exact Hp|].
  exact (gif_touches_only_output true "__main__" (gif_disk (5, 7) 3) input_path Hp).
Defined.

Lemma gif_run_ends_witness :
  (Z.to_nat max_frames ≤ 1000)%nat
  ∧ Process.run (ResizeGif.module_with 1000 true "__main__") (gif_disk (5, 7) 40)
    = Process.run (ResizeGif.module true "__main__") (gif_disk (5, 7) 40).
Proof.
  assert (Z.to_nat max_frames ≤ 1000)%nat as Hfuel by (vm_compute; lia).
  split; [exact Hfuel|].
  exact (proj1 (gif_run_ends 1000 true "__main__" (gif_disk (5, 7) 40) Hfuel)).
Defined.


Lemma gif_tiny_frame_fails_witness :
  gif_disk (1, 1) 1 !! input_path = Some (File (Encoded "GIF" [] [cel (1, 1) 0]))
  ∧ ((size (cel (1, 1) 0)).1 < 2 ∨ (size (cel (1, 1) 0)).2 < 2)
  ∧ Process.status (Process.run (ResizeGif.module true "__main__") (gif_disk (1, 1) 1))
    = Some 1.
Proof.
  assert (gif_disk (1, 1) 1 !! input_path
          = Some (File (Encoded "GIF" [] [cel (1, 1) 0]))) as Hin by reflexivity.
  assert ((size (cel (1, 1) 0)).1 < 2 ∨ (size (cel (1, 1) 0)).2 < 2) as Hsmall
    by (left; cbn; lia).
  split; [exact Hin|]. split; [exact Hsmall|].
  by rewrite (gif_tiny_frame_fails "__main__" (gif_disk (1, 1) 1) "GIF" []
                (cel (1, 1) 0) [] Hin Hsmall).
Defined.

Lemma gif_unreadable_input_witness :
  opens (∅ : gmap string entry) input_path = false
  ∧ let o := Process.run (ResizeGif.module true "__main__") ∅ in
    Process.status o = Some 1 ∧ Process.out o = [] ∧ Process.disk o = ∅.
Proof.
  assert (opens (∅ : gmap string entry) input_path = false) as Hop by reflexivity.
  split; [exact Hop|].
  destruct (gif_unreadable_input "__main__" ∅ Hop) as (H1 & H2 & H3 & _).
  split; [exact H1|]. split; [exact H2|exact H3].
Defined.

Lemma gif_blocked_output_witness :
  blocked_gif_disk !! input_path =
    Some (File (Encoded "GIF" [] [cel (5, 7) 0; cel (5, 7) 1; cel (5, 7) 2]))
  ∧ Forall halvable [cel (5, 7) 0; cel (5, 7) 1; cel (5, 7) 2]
  ∧ is_dir blocked_gif_disk output_path = true
  ∧ Process.status (Process.run (ResizeGif.module true "__main__") blocked_gif_disk)
    = Some 1.
Proof.
  assert (blocked_gif_disk !! input_path =
      Some (File (Encoded "GIF" [] [cel (5, 7) 0; cel (5, 7) 1; cel (5, 7) 2])))
    as Hin by (vm_compute; reflexivity).
  assert (Forall halvable [cel (5, 7) 0; cel (5, 7) 1; cel (5, 7) 2]) as Hall
    by (repeat constructor; cbn; lia).
  assert (is_dir blocked_gif_disk output_path = true) as Hd by (vm_compute; reflexivity).
  split; [exact Hin|]. split; [exact Hall|]. split; [exact Hd|].
  by rewrite (gif_blocked_output "__main__" blocked_gif_disk "GIF" []
                (cel (5, 7) 0) [cel (5, 7) 1; cel (5, 7) 2] Hin Hall Hd).
Defined.


End ResizeGifExtraExamples.
